(** * Student dashboard: the load / filter / metrics / search pipeline

    A shallow embedding of [student_dashboard.py].  The script is a straight
    line of pandas transformations wired to Streamlit widgets; each numbered
    section of the script becomes one function below, taking the widget
    values as arguments and returning either a value or the Python exception
    that stops the script.

    Conventions of the embedding:
    - a cell of a frame is a string, a number or NaN (pandas' missing value);
      a number is the exact rational value of a float64, comparisons are
      exact as they are on floats, the rounded average of [Series.mean] is a
      parameter, and infinities are not represented;
    - a string is a sequence of [ascii] characters, exact for ASCII data;
    - a frame is its header ([df.columns]) and its rows in index order; a row
      maps column names to cells, and a name without an entry reads as NaN. *)

From Stdlib Require Import QArith Qminmax Ascii.
From stdpp Require Import gmap strings list fin_maps.

Close Scope Q_scope.
Local Open Scope string_scope.

(** ** Values, frames and exceptions *)

Inductive cell :=
  | Str (s : string)
  | Num (q : Q)
  | NaN.

Abbreviation Row := (gmap string cell).

Record DataFrame := {
  columns : list string;
  rows : list Row
}.

Inductive exn :=
  | StopException
  | KeyError (col : string)
  | TypeError
  | AttributeError
  | ReNotModelled.

Inductive Result (A : Type) :=
  | Ok (a : A)
  | Raise (e : exn).
Arguments Ok {A} a.
Arguments Raise {A} e.

(** Sequencing of statements: the first exception raised ends the script. *)
#[global] Instance Result_ret : MRet Result := λ A a, Ok a.
#[global] Instance Result_bind : MBind Result := λ A B k m,
  match m with
  | Ok a => k a
  | Raise e => Raise e
  end.

(** An element-wise operator over a series; it raises as soon as one element
    does. *)
Fixpoint traverse {A B} (f : A → Result B) (l : list A) : Result (list B) :=
  match l with
  | [] => Ok []
  | a :: l' => b ← f a; bs ← traverse f l'; Ok (b :: bs)
  end.

(** ** Series and element-wise operators *)

(** The value of column [name] in row [r]. *)
Definition cell_at (name : string) (r : Row) : cell :=
  default NaN (r !! name).

(** [name in df.columns] *)
Definition has_column (df : DataFrame) (name : string) : bool :=
  bool_decide (name ∈ columns df).

(** [df[name]]: the column as a list of cells, [KeyError] when the header
    does not list it. *)
Definition getitem (df : DataFrame) (name : string) : Result (list cell) :=
  if has_column df name then Ok (cell_at name <$> rows df)
  else Raise (KeyError name).

(** [df[mask]]: the rows whose mask entry is [True], in index order. *)
Fixpoint mask_rows (rs : list Row) (mask : list bool) : list Row :=
  match rs, mask with
  | r :: rs', b :: mask' =>
      if b then r :: mask_rows rs' mask' else mask_rows rs' mask'
  | _, _ => []
  end.

Definition loc (df : DataFrame) (mask : list bool) : DataFrame :=
  {| columns := columns df; rows := mask_rows (rows df) mask |}.

Definition Qlt_bool (x y : Q) : bool := negb (Qle_bool y x).

(** [==] on two Python values: strings by content, numbers by value, NaN
    equal to nothing, a string never equal to a number. *)
Definition cell_eq (a b : cell) : bool :=
  match a, b with
  | Str s, Str t => String.eqb s t
  | Num p, Num q => Qeq_bool p q
  | _, _ => false
  end.

(** [Series.isin(values)]: as [==] against some listed value, except that a
    listed NaN matches NaN. *)
Definition cell_same (a b : cell) : bool :=
  match a, b with
  | NaN, NaN => true
  | _, _ => cell_eq a b
  end.

Definition isin (values : list cell) (c : cell) : bool :=
  existsb (cell_same c) values.

(** [c >= x] and [c > x] for a number [x]: NaN compares false, a string
    raises [TypeError]. *)
Definition cell_ge (x : Q) (c : cell) : Result bool :=
  match c with
  | Num q => Ok (Qle_bool x q)
  | NaN => Ok false
  | Str _ => Raise TypeError
  end.

Definition cell_gt (x : Q) (c : cell) : Result bool :=
  match c with
  | Num q => Ok (Qlt_bool x q)
  | NaN => Ok false
  | Str _ => Raise TypeError
  end.

(** The masks these comparisons yield when they do not raise. *)
Definition ge_or_false (x : Q) (c : cell) : bool :=
  match c with
  | Num q => Qle_bool x q
  | _ => false
  end.

Definition gt_or_false (x : Q) (c : cell) : bool :=
  match c with
  | Num q => Qlt_bool x q
  | _ => false
  end.

(** ** Section 2 of the script: the sidebar values and the filters *)

Record FilterCriteria := {
  selected_course : cell;
  selected_cities : list cell;
  marks_filter : Q;
  gender_option : string
}.

(** [if selected_course != "All": filtered_df = filtered_df[filtered_df["Course"] == selected_course]] *)
Definition course_stage (c : FilterCriteria) (fdf : DataFrame) : Result DataFrame :=
  if negb (cell_eq (selected_course c) (Str "All")) then
    col ← getitem fdf "Course";
    Ok (loc fdf ((λ x, cell_eq x (selected_course c)) <$> col))
  else Ok fdf.

(** [if selected_cities: filtered_df = filtered_df[filtered_df["City"].isin(selected_cities)]] *)
Definition city_stage (c : FilterCriteria) (fdf : DataFrame) : Result DataFrame :=
  match selected_cities c with
  | [] => Ok fdf
  | _ :: _ =>
      col ← getitem fdf "City";
      Ok (loc fdf (isin (selected_cities c) <$> col))
  end.

(** [filtered_df = filtered_df[filtered_df["Marks"] >= marks_filter]] *)
Definition marks_stage (c : FilterCriteria) (fdf : DataFrame) : Result DataFrame :=
  col ← getitem fdf "Marks";
  mask ← traverse (cell_ge (marks_filter c)) col;
  Ok (loc fdf mask).

(** [if gender_option != "All": filtered_df = filtered_df[filtered_df["Gender"] == gender_option]] *)
Definition gender_stage (c : FilterCriteria) (fdf : DataFrame) : Result DataFrame :=
  if negb (String.eqb (gender_option c) "All") then
    col ← getitem fdf "Gender";
    Ok (loc fdf ((λ x, cell_eq x (Str (gender_option c))) <$> col))
  else Ok fdf.

(** Lines 68-79: [filtered_df = df.copy()] followed by the four stages. *)
Definition filtered_df (df : DataFrame) (c : FilterCriteria) : Result DataFrame :=
  fdf ← course_stage c df;
  fdf ← city_stage c fdf;
  fdf ← marks_stage c fdf;
  gender_stage c fdf.

(** The criteria that the specification calls the identity. *)
Definition identity_criteria : FilterCriteria :=
  {| selected_course := Str "All"; selected_cities := [];
     marks_filter := 0; gender_option := "All" |}.

(** The row-level reading of the four stages: what it means for one record
    to satisfy the criteria. *)
Definition course_ok (c : FilterCriteria) (r : Row) : bool :=
  cell_eq (selected_course c) (Str "All")
  || cell_eq (cell_at "Course" r) (selected_course c).

Definition city_ok (c : FilterCriteria) (r : Row) : bool :=
  match selected_cities c with
  | [] => true
  | _ :: _ => isin (selected_cities c) (cell_at "City" r)
  end.

Definition marks_ok (c : FilterCriteria) (r : Row) : bool :=
  match cell_at "Marks" r with
  | Num q => Qle_bool (marks_filter c) q
  | _ => false
  end.

Definition gender_ok (c : FilterCriteria) (r : Row) : bool :=
  String.eqb (gender_option c) "All"
  || cell_eq (cell_at "Gender" r) (Str (gender_option c)).

Definition passes (c : FilterCriteria) (r : Row) : bool :=
  course_ok c r && city_ok c r && marks_ok c r && gender_ok c r.

(** The same, spelled out: a filter is active when its widget left the
    neutral value, and an active filter must hold of the record. *)
Definition satisfies (c : FilterCriteria) (r : Row) : Prop :=
  (selected_course c ≠ Str "All" →
     cell_eq (cell_at "Course" r) (selected_course c) = true)
  ∧ (selected_cities c ≠ [] →
     ∃ v, v ∈ selected_cities c ∧ cell_same (cell_at "City" r) v = true)
  ∧ (∃ q, cell_at "Marks" r = Num q ∧ (marks_filter c <= q)%Q)
  ∧ (gender_option c ≠ "All" →
     cell_at "Gender" r = Str (gender_option c)).

(** A column that holds numbers and NaN only, as [pd.to_numeric] leaves it. *)
Definition no_strings (name : string) (rs : list Row) : Prop :=
  Forall (λ r, ∀ s, cell_at name r ≠ Str s) rs.

(** What the sidebar (lines 46-65) can hand to the filters: the course is
    ["All"] or a value of the Course column, the selected cities are values
    of the City column, the minimum is 0 when there is no Marks column, and
    the gender is one of the four radio options, ["All"] when there is no
    Gender column.  (The slider's bounds play no role below.) *)
Definition from_sidebar (df : DataFrame) (c : FilterCriteria) : Prop :=
  (selected_course c = Str "All"
   ∨ ("Course" ∈ columns df ∧ selected_course c ∈ cell_at "Course" <$> rows df))
  ∧ (∀ v, v ∈ selected_cities c →
       "City" ∈ columns df ∧ v ∈ cell_at "City" <$> rows df)
  ∧ ("Marks" ∉ columns df → marks_filter c = 0%Q)
  ∧ (if has_column df "Gender"
     then gender_option c ∈ ["All"; "Male"; "Female"; "Unknown"]
     else gender_option c = "All").

(** ** Section 1 of the script: loading and cleaning *)

(** [Series.fillna(value)] on one cell. *)
Definition fillna_cell (value : cell) (c : cell) : cell :=
  match c with
  | NaN => value
  | _ => c
  end.

(** The dictionary passed to [df.fillna] (lines 19-26). *)
Definition fill_values : gmap string cell :=
  {[ "Course" := Str "Unknown"; "City" := Str "Unknown";
     "Gender" := Str "Unknown"; "Name" := Str "Unknown";
     "Marks" := Num 0; "Attendance" := Num 0 ]}.

(** [DataFrame.fillna(dict)]: in every column of the frame that the
    dictionary names, NaN becomes the listed value; keys that are not
    columns are ignored and no column is created. *)
Definition fillna_step (values : gmap string cell) (r : Row) (k : string) (acc : Row) : Row :=
  match values !! k with
  | Some v => <[k := fillna_cell v (cell_at k r)]> acc
  | None => acc
  end.

Definition fillna_row (cols : list string) (values : gmap string cell) (r : Row) : Row :=
  foldr (fillna_step values r) r cols.

Definition fillna (values : gmap string cell) (df : DataFrame) : DataFrame :=
  {| columns := columns df; rows := fillna_row (columns df) values <$> rows df |}.

(** [df[name] = series] for a column that exists: the header is unchanged
    and row [i] receives element [i]. *)
Definition setitem (df : DataFrame) (name : string) (series : list cell) : DataFrame :=
  {| columns := columns df;
     rows := zip_with (λ r v, <[name := v]> r) (rows df) series |}.

Section Loading.

(** The numeric parser behind [pd.to_numeric]: the number a string
    denotes, if any.  It belongs to pandas, so the development is
    parametric in it. *)
Variable parse_number : string → option Q.

(** [pd.to_numeric(series, errors="coerce")] on one cell: a string that
    does not parse becomes NaN, never an exception. *)
Definition to_numeric (c : cell) : cell :=
  match c with
  | Str s => match parse_number s with
             | Some q => Num q
             | None => NaN
             end
  | _ => c
  end.

(** [if name in df.columns: df[name] = pd.to_numeric(df[name], errors="coerce").fillna(0)] *)
Definition coerce_column (name : string) (df : DataFrame) : Result DataFrame :=
  if has_column df name then
    col ← getitem df name;
    Ok (setitem df name (fillna_cell (Num 0) <$> (to_numeric <$> col)))
  else Ok df.

(** Lines 12-33.  [source] is what [pd.read_csv] finds: [None] when the
    file is missing, in which case [st.stop()] ends the script. *)
Definition load (source : option DataFrame) : Result DataFrame :=
  match source with
  | None => Raise StopException
  | Some raw =>
      let df := fillna fill_values raw in
      df ← coerce_column "Marks" df;
      coerce_column "Attendance" df
  end.

(** The row-level reading of one coercion step and of the whole of
    section 1. *)
Definition coerce_row (present : bool) (name : string) (r : Row) : Row :=
  if present
  then <[name := fillna_cell (Num 0) (to_numeric (cell_at name r))]> r
  else r.

Definition clean_row (cols : list string) (r : Row) : Row :=
  coerce_row (bool_decide ("Attendance" ∈ cols)) "Attendance"
    (coerce_row (bool_decide ("Marks" ∈ cols)) "Marks"
       (fillna_row cols fill_values r)).

End Loading.

(** The columns each cleaning step of section 1 touches. *)
Definition numeric_columns : list string := ["Marks"; "Attendance"].
Definition text_columns : list string := ["Course"; "City"; "Gender"; "Name"].

(** A stand-in for the parser in examples: unsigned decimal integers. *)
Definition digit (a : ascii) : option Z :=
  let n := nat_of_ascii a in
  if (48 <=? n)%nat && (n <=? 57)%nat then Some (Z.of_nat (n - 48)) else None.

Fixpoint digits_value (acc : Z) (s : string) : option Z :=
  match s with
  | EmptyString => Some acc
  | String a s' => d ← digit a; digits_value (10 * acc + d) s'
  end.

Definition parse_digits (s : string) : option Q :=
  match s with
  | EmptyString => None
  | String _ _ => inject_Z <$> digits_value 0 s
  end.

(** ** Section 4 of the script: the key metrics *)

(** [df.empty]: no rows or no columns. *)
Definition empty (df : DataFrame) : bool :=
  match rows df, columns df with
  | _ :: _, _ :: _ => false
  | _, _ => true
  end.

(** The numbers of a series, NaN skipped as [Series.mean] does; a string
    cannot be averaged. *)
Fixpoint numbers (col : list cell) : Result (list Q) :=
  match col with
  | [] => Ok []
  | Num q :: col' => qs ← numbers col'; Ok (q :: qs)
  | NaN :: col' => numbers col'
  | Str _ :: _ => Raise TypeError
  end.

(** The arithmetic mean in exact arithmetic.  This is the notion the
    specification speaks of; the script does not compute it, it computes
    the rounded average below. *)
Definition Qsum (qs : list Q) : Q := foldr Qplus 0%Q qs.

Definition Qmean (qs : list Q) : Q :=
  (Qsum qs / inject_Z (Z.of_nat (length qs)))%Q.

Section KeyMetrics.

(** The float64 average behind [Series.mean()]: the rounded sum of the
    numbers, divided by their count and rounded again.  It belongs to pandas
    and numpy, where the order of the additions depends on the length of the
    column and on the build, so the development is parametric in it. *)
Variable float_mean : list Q → Q.

(** [Series.mean()]: NaN when there is no number to average. *)
Definition mean (col : list cell) : Result cell :=
  qs ← numbers col;
  Ok (match qs with
      | [] => NaN
      | _ :: _ => Num (float_mean qs)
      end).

(** The message shown under the metrics: [st.success], [st.info],
    [st.warning], or the [st.error] of the empty view. *)
Inductive message :=
  | Excellent
  | Good
  | NeedsImprovement
  | NoMatch.

(** The three values bound and shown by [st.metric] (lines 91-97). *)
Record Metrics := {
  avg_marks : cell;
  avg_attendance : cell;
  total_students : nat
}.

(** Lines 100-105. *)
Definition performance_message (avg : cell) : Result message :=
  above ← cell_gt 85 avg;
  if above : bool then Ok Excellent
  else
    atleast ← cell_ge 70 avg;
    if atleast : bool then Ok Good else Ok NeedsImprovement.

(** Lines 90-107.  On an empty view nothing is computed and no metric is
    shown, hence the [option]. *)
Definition key_metrics (df filtered : DataFrame) : Result (option Metrics * message) :=
  if negb (empty filtered) then
    marks ← getitem filtered "Marks";
    avg_m ← mean marks;
    avg_a ← (if has_column df "Attendance"
             then att ← getitem filtered "Attendance"; mean att
             else Ok (Num 0));
    msg ← performance_message avg_m;
    Ok (Some {| avg_marks := avg_m; avg_attendance := avg_a;
                total_students := length (rows filtered) |}, msg)
  else Ok (None, NoMatch).

End KeyMetrics.

(** A stand-in for the average in examples: binary64 arithmetic with
    rounding to nearest, ties to even, and the additions made from left to
    right, which is how the sum of fewer than eight values is formed.  The
    exponent range is not bounded. *)
Definition round_half_even (n d : Z) : Z :=
  let q := (n / d)%Z in
  match (2 * (n mod d) ?= d)%Z with
  | Lt => q
  | Gt => (q + 1)%Z
  | Eq => if Z.even q then q else (q + 1)%Z
  end.

Definition scale (n d e : Z) : Z * Z :=
  if (0 <=? e)%Z then (n, (d * 2 ^ e)%Z) else ((n * 2 ^ (- e))%Z, d).

Definition round64 (x : Q) : Q :=
  let n := Z.abs (Qnum x) in
  let d := Z.pos (Qden x) in
  if (n =? 0)%Z then 0%Q
  else
    let e0 := (Z.log2 n - Z.log2 d - 52)%Z in
    let '(n0, d0) := scale n d e0 in
    let e := if (n0 <? 2 ^ 52 * d0)%Z then (e0 - 1)%Z
             else if (2 ^ 53 * d0 <=? n0)%Z then (e0 + 1)%Z else e0 in
    let '(n1, d1) := scale n d e in
    let m := (Z.sgn (Qnum x) * round_half_even n1 d1)%Z in
    if (0 <=? e)%Z then inject_Z (m * 2 ^ e)
    else Qmake m (Z.to_pos (2 ^ (- e))).

Definition mean64 (qs : list Q) : Q :=
  round64 (fold_left (λ acc q, round64 (acc + q)) qs 0
           / inject_Z (Z.of_nat (length qs)))%Q.

(** ** Section 5 of the script: search by name *)

(** [Series.str.contains(pat, case=False, na=False)] leaves [regex] at its
    default [True]: the text typed by the user is a regular expression.  The
    fragment of Python's [re] modelled here is a sequence of ordinary
    characters and of [.]; a pattern using any other special character is
    outside it. *)
Inductive atom :=
  | Lit (a : ascii)
  | AnyChar.

Definition backslash : ascii := ascii_of_nat 92.

Definition special : list ascii :=
  [ "."; "^"; "$"; "*"; "+"; "?"; "{"; "}"; "["; "]"; backslash; "|"; "("; ")" ]%char.

Definition compile_char (a : ascii) : Result atom :=
  if bool_decide (a = "."%char) then Ok AnyChar
  else if bool_decide (a ∈ special) then Raise ReNotModelled
  else Ok (Lit a).

Fixpoint re_compile (pat : string) : Result (list atom) :=
  match pat with
  | EmptyString => Ok []
  | String a pat' => x ← compile_char a; xs ← re_compile pat'; Ok (x :: xs)
  end.

(** Case folding of [re.IGNORECASE] on ASCII text, where the letters are
    A-Z and a-z.  Python also folds letters outside ASCII; a statement that
    depends on the folding assumes ASCII text ([ascii_only] below). *)
Definition lower (a : ascii) : ascii :=
  let n := nat_of_ascii a in
  if (65 <=? n)%nat && (n <=? 90)%nat then ascii_of_nat (n + 32) else a.

Definition atom_matches (p : atom) (a : ascii) : bool :=
  match p with
  | Lit b => bool_decide (lower a = lower b)
  | AnyChar => negb (bool_decide (a = "010"%char))
  end.

Fixpoint match_here (p : list atom) (s : string) : bool :=
  match p, s with
  | [], _ => true
  | a :: p', String ch s' => atom_matches a ch && match_here p' s'
  | _ :: _, EmptyString => false
  end.

(** [re.search]: a match starting at some position of [s]. *)
Fixpoint re_search (p : list atom) (s : string) : bool :=
  match_here p s
  || match s with
     | String _ s' => re_search p s'
     | EmptyString => false
     end.

Definition is_str (c : cell) : bool :=
  match c with
  | Str _ => true
  | _ => false
  end.

(** The [.str] accessor exists on an empty series and on one that holds
    strings; on a numeric series it raises [AttributeError]. *)
Definition str_accessor (col : list cell) : Result unit :=
  match col with
  | [] => Ok ()
  | _ :: _ => if existsb is_str col then Ok () else Raise AttributeError
  end.

(** A cell that is not a string gives NaN, which [na=False] turns into
    [False]. *)
Definition str_contains (pat : string) (col : list cell) : Result (list bool) :=
  _ ← str_accessor col;
  p ← re_compile pat;
  Ok ((λ c, match c with
            | Str s => re_search p s
            | _ => false
            end) <$> col).

(** Lines 115-116: [result], when a search is made at all. *)
Definition search_result (df : DataFrame) (name_search : string) : Result (option DataFrame) :=
  if negb (String.eqb name_search EmptyString) && has_column df "Name" then
    col ← getitem df "Name";
    mask ← str_contains name_search col;
    Ok (Some (loc df mask))
  else Ok None.

(** What the claim calls containment: [q] occurs in [s] once both are
    folded to lower case. *)
Fixpoint lower_string (s : string) : string :=
  match s with
  | EmptyString => EmptyString
  | String a s' => String (lower a) (lower_string s')
  end.

Definition contains_ci (q s : string) : Prop :=
  ∃ pre post, lower_string s = pre +:+ lower_string q +:+ post.

(** A query without special characters, and the pattern it compiles to. *)
Fixpoint plain (q : string) : bool :=
  match q with
  | EmptyString => true
  | String a q' => negb (bool_decide (a ∈ special)) && plain q'
  end.

Fixpoint lits (q : string) : list atom :=
  match q with
  | EmptyString => []
  | String a q' => Lit a :: lits q'
  end.

(** The row-level reading of a search for a plain query. *)
Definition name_matches (q : string) (r : Row) : bool :=
  match cell_at "Name" r with
  | Str s => re_search (lits q) s
  | _ => false
  end.

(** A column on which the [.str] accessor exists: no rows at all, or some
    string among the values. *)
Definition has_strings (name : string) (rs : list Row) : Prop :=
  rs = [] ∨ ∃ r s, r ∈ rs ∧ cell_at name r = Str s.

(** Text on which the model of strings is exact: every character is an
    ASCII character, so the only letters are A-Z and a-z. *)
Definition is_ascii (a : ascii) : bool := (nat_of_ascii a <? 128)%nat.

Fixpoint ascii_only (s : string) : bool :=
  match s with
  | EmptyString => true
  | String a s' => is_ascii a && ascii_only s'
  end.

Definition ascii_names (rs : list Row) : Prop :=
  Forall (λ r, ∀ s, cell_at "Name" r = Str s → ascii_only s = true) rs.

(** ** Section 6 of the script: the top performers button *)

(** Lines 129-134 once the button is pressed: [top_students], or [None]
    when the warning about the missing Marks column is shown instead. *)
Definition top_students (df : DataFrame) : Result (option DataFrame) :=
  if has_column df "Marks" then
    col ← getitem df "Marks";
    mask ← traverse (cell_gt 90) col;
    Ok (Some (loc df mask))
  else Ok None.

(** ** Section 2 of the script: the widgets and their default positions *)

(** [Series.unique().tolist()]: the values in order of first appearance,
    where two values are the same as for [isin]. *)
Fixpoint unique_from (seen col : list cell) : list cell :=
  match col with
  | [] => []
  | c :: col' =>
      if isin seen c then unique_from seen col'
      else c :: unique_from (c :: seen) col'
  end.

Definition unique (col : list cell) : list cell := unique_from [] col.

(** Lines 46 and 50: [df[name].unique().tolist() if name in df.columns else []]. *)
Definition courses (df : DataFrame) : list cell :=
  if has_column df "Course" then unique (cell_at "Course" <$> rows df) else [].

Definition cities (df : DataFrame) : list cell :=
  if has_column df "City" then unique (cell_at "City" <$> rows df) else [].

(** [Series.min()] and [Series.max()]: NaN skipped, NaN ([None]) when no
    number is left.  The script calls them on the Marks column as section 1
    leaves it. *)
Definition series_min (col : list cell) : Result (option Q) :=
  qs ← numbers col;
  Ok (match qs with
      | [] => None
      | q :: qs' => Some (foldr Qmin q qs')
      end).

Definition series_max (col : list cell) : Result (option Q) :=
  qs ← numbers col;
  Ok (match qs with
      | [] => None
      | q :: qs' => Some (foldr Qmax q qs')
      end).

(** [int(x)] on a float: the integer part, rounding toward zero. *)
Definition truncate (q : Q) : Z := Z.quot (Qnum q) (Z.pos (Qden q)).

(** What the widget code yields: a value, the [ValueError] that [int]
    raises on NaN, the exception with which [st.slider] refuses a range, or
    an exception of the frame operations. *)
Inductive Widget (A : Type) :=
  | Chosen (a : A)
  | ValueError
  | StreamlitAPIException
  | Failed (e : exn).
Arguments Chosen {A} a.
Arguments ValueError {A}.
Arguments StreamlitAPIException {A}.
Arguments Failed {A} e.

(** Lines 55-56: [min_marks] and [max_marks], computed in that order. *)
Definition slider_bounds (df : DataFrame) : Widget (Z * Z) :=
  match getitem df "Marks" with
  | Raise e => Failed e
  | Ok col =>
      match series_min col with
      | Raise e => Failed e
      | Ok None => ValueError
      | Ok (Some lo) =>
          match series_max col with
          | Raise e => Failed e
          | Ok None => ValueError
          | Ok (Some hi) => Chosen (truncate lo, truncate hi)
          end
      end
  end.

(** Lines 54-59 with the slider at its default, the lower bound.  The
    slider needs its lower bound below its upper bound and raises when they
    coincide. *)
Definition default_marks_filter (df : DataFrame) : Widget Z :=
  if has_column df "Marks" then
    match slider_bounds df with
    | Chosen (min_marks, max_marks) =>
        if (min_marks <? max_marks)%Z then Chosen min_marks
        else StreamlitAPIException
    | ValueError => ValueError
    | StreamlitAPIException => StreamlitAPIException
    | Failed e => Failed e
    end
  else Chosen 0%Z.

(** Lines 46-65 when no widget has been touched: the select box on its
    first option, every city selected, the slider on its lower bound, the
    radio on its first option. *)
Definition default_widgets (df : DataFrame) : Widget FilterCriteria :=
  match default_marks_filter df with
  | Chosen m =>
      Chosen {| selected_course := Str "All";
                selected_cities := cities df;
                marks_filter := inject_Z m;
                gender_option := "All" |}
  | ValueError => ValueError
  | StreamlitAPIException => StreamlitAPIException
  | Failed e => Failed e
  end.

(** The table with one more record at its end. *)
Definition append_row (df : DataFrame) (r : Row) : DataFrame :=
  {| columns := columns df; rows := rows df ++ [r] |}.

(** When the filter statements can run: every active filter finds its
    column, Marks is there, and no record that passes the course and city
    stages carries a string as its mark. *)
Definition filterable (df : DataFrame) (c : FilterCriteria) : Prop :=
  (selected_course c ≠ Str "All" → "Course" ∈ columns df)
  ∧ (selected_cities c ≠ [] → "City" ∈ columns df)
  ∧ "Marks" ∈ columns df
  ∧ Forall (λ r, course_ok c r = true → city_ok c r = true →
                 ∀ s, cell_at "Marks" r ≠ Str s) (rows df)
  ∧ (gender_option c ≠ "All" → "Gender" ∈ columns df).

(** ** Sample data *)

Definition row_of (l : list (string * cell)) : Row := list_to_map l.

Definition student (name course city gender : string) (marks attendance : Q) : Row :=
  row_of [("Name", Str name); ("Course", Str course); ("City", Str city);
          ("Gender", Str gender); ("Marks", Num marks);
          ("Attendance", Num attendance)].

Definition header : list string :=
  ["Name"; "Course"; "City"; "Gender"; "Marks"; "Attendance"].

Definition anya := student "Anya" "Math" "Pune" "Female" 95 90.
Definition dan := student "Dan" "Physics" "Delhi" "Male" 90 80.
Definition bob := student "Bob" "Math" "Delhi" "Male" 91 70.

Definition class : DataFrame :=
  {| columns := header; rows := [anya; dan; bob] |}.

(** A record with a negative mark, as a CSV may well contain. *)
Definition zed := student "Zed" "Math" "Pune" "Male" (-5) 60.

Definition with_negative : DataFrame :=
  {| columns := header; rows := [zed; anya] |}.

(** A source without the Marks column. *)
Definition without_marks : DataFrame :=
  {| columns := ["Name"; "Course"; "City"; "Gender"; "Attendance"];
     rows := [ row_of [("Name", Str "Anya"); ("Course", Str "Math");
                       ("City", Str "Pune"); ("Gender", Str "Female");
                       ("Attendance", Num 90)] ] |}.

(** The class with no row left. *)
Definition nobody : DataFrame := {| columns := header; rows := [] |}.

(** A raw source as [pd.read_csv] returns it: text in a Marks cell, empty
    fields read as NaN. *)
Definition raw_rows : list Row :=
  [ row_of [("Name", Str "Anya"); ("Course", NaN); ("Marks", Str "abc");
            ("Attendance", Str "90")];
    row_of [("Name", NaN); ("Course", Str "Math"); ("Marks", Str "77");
            ("Attendance", NaN)] ].

Definition raw_source : DataFrame :=
  {| columns := ["Name"; "Course"; "Marks"; "Attendance"]; rows := raw_rows |}.

Definition math_in_delhi : FilterCriteria :=
  {| selected_course := Str "Math"; selected_cities := [Str "Delhi"];
     marks_filter := 91; gender_option := "Male" |}.

Definition nobody_qualifies : FilterCriteria :=
  {| selected_course := Str "All"; selected_cities := [];
     marks_filter := 100; gender_option := "All" |}.

(** Four float64 marks whose arithmetic mean is exactly 85. *)
Definition rounding_marks : list Q :=
  [ 6417629469002957 # 70368744177664; 3258072855425843 # 35184372088832;
    2969561004297421 # 35184372088832; 5052475831956275 # 70368744177664 ]%Q.

Definition rounding_view : DataFrame :=
  {| columns := header;
     rows := (λ q, student "Sam" "Math" "Pune" "Male" q 75) <$> rounding_marks |}.

(** Views of one record with the given mark. *)
Definition single (marks : Q) : DataFrame :=
  {| columns := header;
     rows := [student "Sam" "Math" "Pune" "Male" marks 75] |}.

(** The raw source above, as section 1 leaves it. *)
Definition cleaned_source : DataFrame :=
  {| columns := columns raw_source;
     rows := clean_row parse_digits (columns raw_source) <$> rows raw_source |}.

(** The view of the class that [math_in_delhi] selects. *)
Definition only_bob : DataFrame := {| columns := header; rows := [bob] |}.

(** A source without the Attendance column. *)
Definition without_attendance : DataFrame :=
  {| columns := ["Name"; "Marks"];
     rows := [ row_of [("Name", Str "Anya"); ("Marks", Num 95)];
               row_of [("Name", Str "Dan"); ("Marks", Num 60)] ] |}.



Definition every_city_of_class : FilterCriteria :=
  {| selected_course := Str "All"; selected_cities := cities class;
     marks_filter := 0; gender_option := "All" |}.

(** * Properties *)

(** ** Boolean masks are filters *)

Lemma mask_rows_fmap (f : Row → bool) (rs : list Row) :
  mask_rows rs (f <$> rs) = filter (λ r, f r) rs.
Proof.
  induction rs as [|r rs IH]; [done|].
  cbn [fmap list_fmap mask_rows]. rewrite filter_cons, IH.
  destruct (f r); by rewrite ?decide_True, ?decide_False by naive_solver.
Qed.

Lemma loc_fmap (df : DataFrame) (name : string) (f : cell → bool) :
  loc df (f <$> (cell_at name <$> rows df))
  = {| columns := columns df; rows := filter (λ r, f (cell_at name r)) (rows df) |}.
Proof.
  unfold loc. f_equal. rewrite <- list_fmap_compose. apply mask_rows_fmap.
Qed.

Lemma getitem_Ok (df : DataFrame) (name : string) (col : list cell) :
  getitem df name = Ok col → name ∈ columns df ∧ col = cell_at name <$> rows df.
Proof.
  unfold getitem, has_column. case_bool_decide; naive_solver.
Qed.

Lemma getitem_present (df : DataFrame) (name : string) :
  name ∈ columns df → getitem df name = Ok (cell_at name <$> rows df).
Proof.
  intros H. unfold getitem, has_column. by rewrite bool_decide_eq_true_2.
Qed.

Lemma getitem_absent (df : DataFrame) (name : string) :
  name ∉ columns df → getitem df name = Raise (KeyError name).
Proof.
  intros H. unfold getitem, has_column. by rewrite bool_decide_eq_false_2.
Qed.

Lemma traverse_cell_ge (x : Q) (col : list cell) (mask : list bool) :
  traverse (cell_ge x) col = Ok mask → mask = ge_or_false x <$> col.
Proof.
  revert mask. induction col as [|c col IH]; intros mask; cbn.
  - by intros [= <-].
  - destruct c as [s|q|]; cbn; [done| |];
      (destruct (traverse (cell_ge x) col) as [bs|e]; cbn; [|done]);
      intros [= <-]; by rewrite (IH bs).
Qed.

(** ** Each stage keeps exactly the rows its predicate accepts *)

Lemma course_stage_Ok c fdf V :
  course_stage c fdf = Ok V →
  V = {| columns := columns fdf; rows := filter (λ r, course_ok c r) (rows fdf) |}.
Proof.
  unfold course_stage, course_ok.
  destruct (cell_eq (selected_course c) (Str "All")) eqn:Hall; cbn.
  - intros [= <-]. destruct fdf as [cols rs]; cbn. f_equal.
    symmetry. induction rs as [|r rs IH]; [done|].
    rewrite filter_cons, decide_True by done. by f_equal.
  - destruct (getitem fdf "Course") as [col|e] eqn:Hcol; cbn; [|done].
    apply getitem_Ok in Hcol as [_ ->]. intros [= <-].
    by rewrite (loc_fmap fdf "Course" (λ x, cell_eq x (selected_course c))).
Qed.

Lemma filter_all_true {A} (f : A → bool) (l : list A) :
  (∀ x, f x = true) → filter (λ x, f x) l = l.
Proof.
  intros Hf. induction l as [|x l IH]; [done|].
  rewrite filter_cons, decide_True by (rewrite Hf; done). by f_equal.
Qed.

Lemma city_stage_Ok c fdf V :
  city_stage c fdf = Ok V →
  V = {| columns := columns fdf; rows := filter (λ r, city_ok c r) (rows fdf) |}.
Proof.
  unfold city_stage, city_ok.
  destruct (selected_cities c) as [|v vs] eqn:Hsel.
  - intros [= <-]. destruct fdf as [cols rs]; cbn. f_equal.
    symmetry. by apply (filter_all_true (λ _, true)).
  - destruct (getitem fdf "City") as [col|e] eqn:Hcol; cbn; [|done].
    apply getitem_Ok in Hcol as [_ ->]. intros [= <-].
    by rewrite (loc_fmap fdf "City" (isin (v :: vs))).
Qed.

Lemma marks_stage_Ok c fdf V :
  marks_stage c fdf = Ok V →
  V = {| columns := columns fdf; rows := filter (λ r, marks_ok c r) (rows fdf) |}.
Proof.
  unfold marks_stage.
  destruct (getitem fdf "Marks") as [col|e] eqn:Hcol; cbn; [|done].
  apply getitem_Ok in Hcol as [_ ->].
  destruct (traverse _ _) as [mask|e] eqn:Hmask; cbn; [|done].
  apply traverse_cell_ge in Hmask as ->. intros [= <-].
  by rewrite (loc_fmap fdf "Marks" (ge_or_false (marks_filter c))).
Qed.

Lemma gender_stage_Ok c fdf V :
  gender_stage c fdf = Ok V →
  V = {| columns := columns fdf; rows := filter (λ r, gender_ok c r) (rows fdf) |}.
Proof.
  unfold gender_stage, gender_ok.
  destruct (String.eqb (gender_option c) "All") eqn:Hall; cbn.
  - intros [= <-]. destruct fdf as [cols rs]; cbn. f_equal.
    symmetry. by apply (filter_all_true (λ _, true)).
  - destruct (getitem fdf "Gender") as [col|e] eqn:Hcol; cbn; [|done].
    apply getitem_Ok in Hcol as [_ ->]. intros [= <-].
    by rewrite (loc_fmap fdf "Gender" (λ x, cell_eq x (Str (gender_option c)))).
Qed.

(** The pipeline as one filter: whenever the four statements run through,
    the view holds exactly the rows of [df] that pass, in index order, under
    the same header. *)
Lemma filtered_df_Ok df c V :
  filtered_df df c = Ok V →
  V = {| columns := columns df; rows := filter (λ r, passes c r) (rows df) |}.
Proof.
  unfold filtered_df.
  destruct (course_stage c df) as [d1|e] eqn:H1; cbn; [|done].
  destruct (city_stage c d1) as [d2|e] eqn:H2; cbn; [|done].
  destruct (marks_stage c d2) as [d3|e] eqn:H3; cbn; [|done].
  intros H4.
  apply course_stage_Ok in H1 as ->. apply city_stage_Ok in H2 as ->.
  apply marks_stage_Ok in H3 as ->. apply gender_stage_Ok in H4 as ->.
  cbn. f_equal. rewrite !list_filter_filter.
  apply list_filter_iff. intros r. unfold passes.
  rewrite !andb_True. tauto.
Qed.

(** ** The boolean predicates against their reading *)

Lemma cell_eq_Str (x : cell) (s : string) : cell_eq x (Str s) = true ↔ x = Str s.
Proof.
  destruct x as [t|q|]; cbn; [|done..].
  rewrite String.eqb_eq. naive_solver.
Qed.

Lemma isin_spec (vs : list cell) (x : cell) :
  isin vs x = true ↔ ∃ v, v ∈ vs ∧ cell_same x v = true.
Proof.
  unfold isin. rewrite existsb_exists.
  split; intros (v & ? & ?); exists v; by rewrite ?list_elem_of_In in *.
Qed.

Lemma active_or (b : bool) (P A : Prop) :
  (b = true ↔ P) → (b = true ∨ A) ↔ (¬ P → A).
Proof. destruct b; intros [H1 H2]; split; try tauto; intros H; right; apply H; intros HP; by specialize (H2 HP). Qed.

Lemma city_ok_spec c r :
  city_ok c r = true
  ↔ (selected_cities c ≠ [] →
     ∃ v, v ∈ selected_cities c ∧ cell_same (cell_at "City" r) v = true).
Proof.
  unfold city_ok. rewrite <- isin_spec.
  destruct (selected_cities c) as [|v vs]; [tauto|].
  split; [tauto|]. intros H. by apply H.
Qed.

Lemma marks_ok_spec c r :
  marks_ok c r = true
  ↔ ∃ q, cell_at "Marks" r = Num q ∧ (marks_filter c <= q)%Q.
Proof.
  unfold marks_ok. destruct (cell_at "Marks" r) as [s|q|].
  - split; [done|]. by intros (q & ? & _).
  - rewrite Qle_bool_iff. split; [eauto|]. by intros (q' & [= <-] & ?).
  - split; [done|]. by intros (q & ? & _).
Qed.

Lemma passes_satisfies c r : passes c r = true ↔ satisfies c r.
Proof.
  unfold passes, satisfies, course_ok, gender_ok.
  rewrite !andb_true_iff, !orb_true_iff, city_ok_spec, marks_ok_spec.
  rewrite (active_or _ _ _ (cell_eq_Str (selected_course c) "All")).
  rewrite (active_or _ _ _ (String.eqb_eq (gender_option c) "All")).
  rewrite cell_eq_Str. tauto.
Qed.

(** ** When the filters run through *)

Lemma traverse_cell_ge_total (x : Q) (col : list cell) :
  Forall (λ c, ∀ s, c ≠ Str s) col →
  traverse (cell_ge x) col = Ok (ge_or_false x <$> col).
Proof.
  induction 1 as [|c col Hc _ IH]; [done|].
  cbn. rewrite IH. destruct c; cbn; [by destruct (Hc s)|done..].
Qed.

Lemma course_stage_total df c fdf :
  from_sidebar df c → columns fdf = columns df →
  ∃ V, course_stage c fdf = Ok V.
Proof.
  intros (Hcourse & _) Hcols. unfold course_stage.
  destruct (cell_eq (selected_course c) (Str "All")) eqn:Hall; cbn; [eauto|].
  destruct Hcourse as [Heq|[Hin _]].
  - rewrite Heq in Hall. discriminate.
  - rewrite getitem_present by (by rewrite Hcols). cbn. eauto.
Qed.

Lemma city_stage_total df c fdf :
  from_sidebar df c → columns fdf = columns df →
  ∃ V, city_stage c fdf = Ok V.
Proof.
  intros (_ & Hcity & _) Hcols. unfold city_stage.
  destruct (selected_cities c) as [|v vs]; [eauto|].
  destruct (Hcity v) as [Hin _]; [by left|].
  rewrite getitem_present by (by rewrite Hcols). cbn. eauto.
Qed.

Lemma gender_stage_total df c fdf :
  from_sidebar df c → columns fdf = columns df →
  ∃ V, gender_stage c fdf = Ok V.
Proof.
  intros (_ & _ & _ & Hgender) Hcols. unfold gender_stage.
  destruct (String.eqb (gender_option c) "All") eqn:Hall; cbn; [eauto|].
  apply String.eqb_neq in Hall.
  unfold has_column in Hgender. case_bool_decide as Hin; [|done].
  rewrite getitem_present by (by rewrite Hcols). cbn. eauto.
Qed.

Lemma marks_stage_total c fdf :
  "Marks" ∈ columns fdf → no_strings "Marks" (rows fdf) →
  ∃ V, marks_stage c fdf = Ok V.
Proof.
  intros Hin Hnum. unfold marks_stage.
  rewrite getitem_present by done. cbn.
  rewrite traverse_cell_ge_total; [cbn; eauto|].
  by apply Forall_fmap.
Qed.

Lemma no_strings_filter name (P : Row → Prop) `{!∀ r, Decision (P r)} rs :
  no_strings name rs → no_strings name (filter P rs).
Proof.
  unfold no_strings. rewrite !Forall_forall. intros Hall r Hr.
  apply list_elem_of_filter in Hr as [_ Hr]. by apply Hall.
Qed.

(** On a frame with a numeric Marks column, every choice the sidebar offers
    is filtered without an exception. *)
Lemma filtered_df_total df c :
  "Marks" ∈ columns df → no_strings "Marks" (rows df) → from_sidebar df c →
  ∃ V, filtered_df df c = Ok V.
Proof.
  intros Hin Hnum Hside. unfold filtered_df.
  destruct (course_stage_total df c df Hside eq_refl) as [d1 H1].
  rewrite H1. cbn. apply course_stage_Ok in H1 as ->.
  destruct (city_stage_total df c
    {| columns := columns df; rows := filter (λ r, course_ok c r) (rows df) |}
    Hside eq_refl) as [d2 H2].
  rewrite H2. cbn. apply city_stage_Ok in H2 as ->. cbn.
  destruct (marks_stage_total c
    {| columns := columns df;
       rows := filter (λ r, city_ok c r) (filter (λ r, course_ok c r) (rows df)) |})
    as [d3 H3]; [done|by do 2 apply no_strings_filter|].
  rewrite H3. cbn. apply marks_stage_Ok in H3 as ->. cbn.
  by apply (gender_stage_total df).
Qed.

(** ** The filter pipeline (claims C1, C10, C9, C2, C3) *)

Lemma filter_Forall_id {A} (P : A → Prop) `{!∀ x, Decision (P x)} (l : list A) :
  Forall P l → filter P l = l.
Proof.
  induction 1 as [|x l Hx _ IH]; [done|].
  rewrite filter_cons, decide_True by done. by f_equal.
Qed.

Lemma frame_eta (df : DataFrame) :
  {| columns := columns df; rows := rows df |} = df.
Proof. by destruct df. Qed.

(** C1.  Whenever the four filter statements produce a view, the view has
    the header of the base table, its rows are a subsequence of the base
    rows (same records, same relative order), and every record in it
    satisfies each active predicate: course, city membership, minimum marks
    and gender.  A view is produced for every base table with a numeric
    Marks column and every choice the sidebar offers. *)
Theorem filtered_df_subsequence (df : DataFrame) (c : FilterCriteria) :
  (∀ V, filtered_df df c = Ok V →
     columns V = columns df
     ∧ rows V `sublist_of` rows df
     ∧ ∀ r, r ∈ rows V → r ∈ rows df ∧ satisfies c r)
  ∧ ("Marks" ∈ columns df → no_strings "Marks" (rows df) → from_sidebar df c →
     ∃ V, filtered_df df c = Ok V).
Proof.
  split; [|apply filtered_df_total].
  intros V HV. apply filtered_df_Ok in HV as ->. cbn.
  split; [done|]. split; [apply sublist_filter|].
  intros r Hr. apply list_elem_of_filter in Hr as [Hp Hr].
  split; [done|]. by apply passes_satisfies, Is_true_true.
Qed.

(** C10.  The view drops no qualifying record.  Whenever the filter
    statements produce a view, it is exactly the base rows that pass, so
    every record of the base table that satisfies all active predicates is
    in it; and on every base table with a numeric Marks column, for every
    choice the sidebar offers, they do produce such a view. *)
Theorem filtered_df_complete (df : DataFrame) (c : FilterCriteria) :
  (∀ V, filtered_df df c = Ok V →
     rows V = filter (λ r, passes c r) (rows df)
     ∧ ∀ r, r ∈ rows df → satisfies c r → r ∈ rows V)
  ∧ ("Marks" ∈ columns df → no_strings "Marks" (rows df) → from_sidebar df c →
     ∃ V, filtered_df df c = Ok V
        ∧ ∀ r, r ∈ rows df → satisfies c r → r ∈ rows V).
Proof.
  assert (Hall : ∀ V, filtered_df df c = Ok V →
            rows V = filter (λ r, passes c r) (rows df)
            ∧ ∀ r, r ∈ rows df → satisfies c r → r ∈ rows V).
  { intros V HV. apply filtered_df_Ok in HV as ->. cbn.
    split; [done|]. intros r Hr Hsat.
    apply list_elem_of_filter. split; [|done].
    by apply Is_true_true, passes_satisfies. }
  split; [exact Hall|].
  intros Hin Hnum Hside.
  destruct (filtered_df_total df c Hin Hnum Hside) as [V HV].
  exists V. split; [done|]. by apply Hall.
Qed.

(** C9.  The city stage with no city selected returns its input unchanged;
    with a non-empty selection (and a City column to look at) it keeps, in
    order, exactly the records whose City is one of the selected values. *)
Theorem city_stage_spec (c : FilterCriteria) (fdf : DataFrame) :
  (selected_cities c = [] → city_stage c fdf = Ok fdf)
  ∧ (selected_cities c ≠ [] → "City" ∈ columns fdf →
     ∃ V, city_stage c fdf = Ok V
        ∧ columns V = columns fdf
        ∧ rows V = filter (λ r, isin (selected_cities c) (cell_at "City" r)) (rows fdf)
        ∧ ∀ r, r ∈ rows V ↔
               r ∈ rows fdf
               ∧ ∃ v, v ∈ selected_cities c ∧ cell_same (cell_at "City" r) v = true).
Proof.
  unfold city_stage. split.
  - by intros ->.
  - intros Hne Hin. destruct (selected_cities c) as [|v vs] eqn:Hsel; [done|].
    rewrite getitem_present by done. cbn.
    rewrite (loc_fmap fdf "City" (isin (v :: vs))).
    eexists. split; [done|]. cbn [columns rows]. split; [done|]. split; [done|].
    intros r. rewrite list_elem_of_filter. cbn beta.
    rewrite Is_true_true, isin_spec. tauto.
Qed.

(** C2, as amended.  On a table with a Marks column in which every mark is
    a number not below 0, the identity criteria return the table unchanged. *)
Theorem identity_criteria_nonnegative (df : DataFrame) :
  "Marks" ∈ columns df →
  Forall (λ r, ∃ q, cell_at "Marks" r = Num q ∧ (0 <= q)%Q) (rows df) →
  filtered_df df identity_criteria = Ok df.
Proof.
  intros Hin Hpos.
  destruct (filtered_df_total df identity_criteria) as [V HV]; [done| | |].
  - eapply Forall_impl; [exact Hpos|]. intros r (q & -> & _) s. done.
  - unfold from_sidebar. cbn. split; [by left|]. split; [by intros v ?%elem_of_nil|].
    split; [done|]. destruct (has_column df "Gender"); [by left|done].
  - rewrite HV. f_equal. apply filtered_df_Ok in HV as ->.
    rewrite filter_Forall_id; [apply frame_eta|].
    eapply Forall_impl; [exact Hpos|]. intros r (q & Hq & Hle).
    apply Is_true_true. unfold passes, course_ok, city_ok, marks_ok, gender_ok.
    cbn. rewrite Hq. apply Qle_bool_iff in Hle. by rewrite Hle.
Qed.

(** C3.  On a base table without a Marks column the unguarded statement of
    line 76 raises [KeyError], whatever the sidebar handed over: the stage is
    not skipped. *)
Theorem filtered_df_without_marks (df : DataFrame) (c : FilterCriteria) :
  "Marks" ∉ columns df → from_sidebar df c →
  filtered_df df c = Raise (KeyError "Marks").
Proof.
  intros Hnot Hside. unfold filtered_df.
  destruct (course_stage_total df c df Hside eq_refl) as [d1 H1].
  rewrite H1. cbn. apply course_stage_Ok in H1 as ->.
  destruct (city_stage_total df c
    {| columns := columns df; rows := filter (λ r, course_ok c r) (rows df) |}
    Hside eq_refl) as [d2 H2].
  rewrite H2. cbn. apply city_stage_Ok in H2 as ->. cbn.
  unfold marks_stage. by rewrite getitem_absent.
Qed.

(** ** The key metrics (claims C4, C5) *)

Section MetricsProperties.

Variable float_mean : list Q → Q.

Lemma Qlt_bool_iff (x y : Q) : Qlt_bool x y = true ↔ (x < y)%Q.
Proof.
  unfold Qlt_bool. rewrite negb_true_iff, <- not_true_iff_false, Qle_bool_iff.
  split; [apply Qnot_le_lt|apply Qlt_not_le].
Qed.

Lemma numbers_Num (qs : list Q) : numbers (Num <$> qs) = Ok qs.
Proof. induction qs as [|q qs IH]; [done|]. cbn. by rewrite IH. Qed.

Lemma numbers_total (col : list cell) :
  Forall (λ c, ∀ s, c ≠ Str s) col → ∃ qs, numbers col = Ok qs.
Proof.
  induction 1 as [|c col Hc _ [qs IH]]; [by exists []|].
  destruct c as [s|q|]; cbn; [by destruct (Hc s)| |by exists qs].
  rewrite IH. cbn. eauto.
Qed.

Lemma mean_total (col : list cell) :
  Forall (λ c, ∀ s, c ≠ Str s) col → ∃ avg, mean float_mean col = Ok avg.
Proof.
  intros [qs Hqs]%numbers_total. unfold mean. rewrite Hqs. cbn. eauto.
Qed.

Lemma mean_Num (qs : list Q) :
  qs ≠ [] → mean float_mean (Num <$> qs) = Ok (Num (float_mean qs)).
Proof.
  intros Hne. unfold mean. rewrite numbers_Num. cbn. by destruct qs.
Qed.

Lemma bind_Ok {A B} (a : A) (k : A → Result B) : (Ok a ≫= k) = k a.
Proof. done. Qed.

(** The three branches of lines 100-105 on a numeric average. *)
Lemma performance_message_Num (avg : Q) :
  ∃ t, performance_message (Num avg) = Ok t
     ∧ (t = Excellent ↔ (85 < avg)%Q)
     ∧ (t = Good ↔ (70 <= avg)%Q ∧ (avg <= 85)%Q)
     ∧ (t = NeedsImprovement ↔ (avg < 70)%Q)
     ∧ t ≠ NoMatch.
Proof.
  unfold performance_message. cbn.
  destruct (Qlt_bool 85 avg) eqn:Hhi.
  - apply Qlt_bool_iff in Hhi. exists Excellent.
    split; [done|]. split; [done|]. split; [|split; [|done]].
    + split; [done|]. intros [_ Hle]. by apply Qle_not_lt in Hle.
    + split; [done|]. intros Hlt. exfalso.
      apply (Qlt_irrefl avg). eapply Qlt_trans; [exact Hlt|].
      eapply Qlt_trans; [|exact Hhi]. reflexivity.
  - assert (Hle : (avg <= 85)%Q).
    { apply Qnot_lt_le. intros Hlt%Qlt_bool_iff. congruence. }
    destruct (Qle_bool 70 avg) eqn:Hmid.
    + apply Qle_bool_iff in Hmid. exists Good.
      split; [done|]. split; [|split; [done|split; [|done]]].
      * split; [done|]. intros Hlt. by apply Qle_not_lt in Hle.
      * split; [done|]. intros Hlt. by apply Qle_not_lt in Hmid.
    + assert (Hlt : (avg < 70)%Q).
      { apply Qnot_le_lt. intros Hge%Qle_bool_iff. congruence. }
      exists NeedsImprovement.
      split; [done|]. split; [|split; [|done]].
      * split; [done|]. intros Hgt. exfalso.
        apply (Qlt_irrefl avg). eapply Qlt_trans; [exact Hlt|].
        eapply Qlt_trans; [|exact Hgt]. reflexivity.
      * split; [done|]. intros [Hge _]. by apply Qle_not_lt in Hge.
Qed.

(** C4, as amended.  On a non-empty view whose marks are the numbers [qs],
    the metrics are shown, the average is the float64 average that
    [Series.mean] computes for [qs], and the message is decided by that
    computed average alone: above 85 Excellent, from 70 to 85 (both
    inclusive) Good, below 70 Needs improvement.  Whenever the computed
    average equals the exact arithmetic mean, the same thresholds read on
    the arithmetic mean. *)
Theorem tier_by_computed_average (df V : DataFrame) (qs : list Q) :
  rows V ≠ [] → "Marks" ∈ columns V →
  cell_at "Marks" <$> rows V = Num <$> qs →
  columns V = columns df → no_strings "Attendance" (rows V) →
  ∃ m t, key_metrics float_mean df V = Ok (Some m, t)
       ∧ avg_marks m = Num (float_mean qs)
       ∧ total_students m = length (rows V)
       ∧ (t = Excellent ↔ (85 < float_mean qs)%Q)
       ∧ (t = Good ↔ (70 <= float_mean qs)%Q ∧ (float_mean qs <= 85)%Q)
       ∧ (t = NeedsImprovement ↔ (float_mean qs < 70)%Q)
       ∧ ((float_mean qs == Qmean qs)%Q →
            (t = Excellent ↔ (85 < Qmean qs)%Q)
            ∧ (t = Good ↔ (70 <= Qmean qs)%Q ∧ (Qmean qs <= 85)%Q)
            ∧ (t = NeedsImprovement ↔ (Qmean qs < 70)%Q)).
Proof.
  intros Hrows Hin Hmarks Hcols Hatt. unfold key_metrics.
  assert (Hne : empty V = false).
  { unfold empty. destruct (rows V); [done|].
    destruct (columns V); [by apply elem_of_nil in Hin|done]. }
  rewrite Hne. cbn [negb].
  assert (Hqs : qs ≠ []).
  { intros ->. destruct (rows V); [done|discriminate]. }
  rewrite (getitem_present V "Marks"), bind_Ok, Hmarks by done.
  rewrite mean_Num, bind_Ok by done.
  assert (∃ avg_a, (if has_column df "Attendance"
                    then att ← getitem V "Attendance"; mean float_mean att
                    else Ok (Num 0)) = Ok avg_a) as [avg_a ->].
  { unfold has_column. case_bool_decide as Hc; [|eauto].
    rewrite getitem_present, bind_Ok by (by rewrite Hcols).
    apply mean_total. by apply Forall_fmap. }
  rewrite bind_Ok.
  destruct (performance_message_Num (float_mean qs))
    as (t & -> & H1 & H2 & H3 & _). rewrite bind_Ok.
  eexists _, t. split; [done|]. cbn [avg_marks total_students].
  do 5 (split; [done|]).
  intros Heq. rewrite <- Heq. done.
Qed.

Lemma filtered_df_has_marks df c V :
  filtered_df df c = Ok V → "Marks" ∈ columns V.
Proof.
  intros HV. pose proof HV as ->%filtered_df_Ok. cbn.
  unfold filtered_df in HV.
  destruct (course_stage c df) as [d1|e] eqn:H1; [|done].
  rewrite bind_Ok in HV.
  destruct (city_stage c d1) as [d2|e] eqn:H2; [|done].
  rewrite bind_Ok in HV.
  destruct (marks_stage c d2) as [d3|e] eqn:H3; [|done].
  apply course_stage_Ok in H1 as ->. apply city_stage_Ok in H2 as ->.
  unfold marks_stage in H3.
  destruct (getitem _ "Marks") as [col|e] eqn:Hcol; [|done].
  by apply getitem_Ok in Hcol as [Hin _].
Qed.

Lemma performance_message_shown (avg : cell) (t : message) :
  performance_message avg = Ok t → t ≠ NoMatch.
Proof.
  unfold performance_message. destruct avg as [s|q|]; cbn; [done| |].
  - destruct (Qlt_bool 85 q); cbn; [by intros [= <-]|].
    destruct (Qle_bool 70 q); by intros [= <-].
  - by intros [= <-].
Qed.

Lemma key_metrics_no_rows (df V : DataFrame) :
  rows V = [] → key_metrics float_mean df V = Ok (None, NoMatch).
Proof. intros Hrows. unfold key_metrics, empty. by rewrite Hrows. Qed.

Lemma key_metrics_some_rows (df V : DataFrame) (m : option Metrics) (t : message) :
  rows V ≠ [] → columns V ≠ [] → key_metrics float_mean df V = Ok (m, t) →
  m ≠ None ∧ t ≠ NoMatch.
Proof.
  intros Hrows Hcols. unfold key_metrics, empty.
  destruct (rows V); [done|]. destruct (columns V); [done|]. cbn [negb].
  destruct (getitem _ "Marks") as [col|e]; [|done]. rewrite bind_Ok.
  destruct (mean float_mean col) as [avg_m|e]; [|done]. rewrite bind_Ok.
  destruct (if has_column df "Attendance" then _ else _) as [avg_a|e]; [|done].
  rewrite bind_Ok.
  destruct (performance_message avg_m) as [msg|e] eqn:Hmsg; [|done].
  rewrite bind_Ok. intros [= <- <-].
  split; [done|]. by eapply performance_message_shown.
Qed.

(** C5, as amended.  For a view produced by the filters: when it has no
    rows, no average and no count is computed (there is no zero-valued
    summary) and only the no-match message is shown, without an exception;
    and whenever the metrics section runs through, the no-match message
    appears exactly when the view has no rows, which is also exactly when
    no metric is shown. *)
Theorem no_match_iff_empty (df : DataFrame) (c : FilterCriteria) (V : DataFrame) :
  filtered_df df c = Ok V →
  (rows V = [] → key_metrics float_mean df V = Ok (None, NoMatch))
  ∧ (∀ m t, key_metrics float_mean df V = Ok (m, t) →
       (t = NoMatch ↔ rows V = []) ∧ (m = None ↔ rows V = [])).
Proof.
  intros HV. split; [apply key_metrics_no_rows|].
  intros m t Hkm. destruct (rows V) as [|r rs] eqn:Hrows.
  - rewrite key_metrics_no_rows in Hkm by done. by injection Hkm as <- <-.
  - apply key_metrics_some_rows in Hkm as [Hm Ht].
    + split; split; done.
    + by rewrite Hrows.
    + apply filtered_df_has_marks in HV. intros Hnil.
      rewrite Hnil in HV. by apply elem_of_nil in HV.
Qed.

End MetricsProperties.

(** ** The top performers (claim C8) *)

Lemma traverse_cell_gt_total (x : Q) (col : list cell) :
  Forall (λ c, ∀ s, c ≠ Str s) col →
  traverse (cell_gt x) col = Ok (gt_or_false x <$> col).
Proof.
  induction 1 as [|c col Hc _ IH]; [done|].
  cbn. rewrite IH. destruct c; cbn; [by destruct (Hc s)|done..].
Qed.

(** C8.  On a table whose Marks column is numeric, the button shows, under
    the same header and in the original order, exactly the records whose
    mark is strictly above 90; a record with mark 90 is not among them.
    Without a Marks column it shows the warning and no record. *)
Theorem top_students_spec (df : DataFrame) :
  no_strings "Marks" (rows df) →
  ("Marks" ∈ columns df →
     ∃ V, top_students df = Ok (Some V)
        ∧ columns V = columns df
        ∧ rows V = filter (λ r, gt_or_false 90 (cell_at "Marks" r)) (rows df)
        ∧ (∀ r, r ∈ rows V ↔
                r ∈ rows df ∧ ∃ q, cell_at "Marks" r = Num q ∧ (90 < q)%Q)
        ∧ (∀ r q, r ∈ rows V → cell_at "Marks" r = Num q → ¬ (q == 90)%Q))
  ∧ ("Marks" ∉ columns df → top_students df = Ok None).
Proof.
  intros Hnum. unfold top_students, has_column. split; intros Hin.
  - rewrite bool_decide_eq_true_2, getitem_present, bind_Ok by done.
    rewrite traverse_cell_gt_total, bind_Ok by (by apply Forall_fmap).
    rewrite (loc_fmap df "Marks" (gt_or_false 90)).
    eexists. split; [done|]. cbn [columns rows].
    assert (Hiff : ∀ r, r ∈ filter (λ r, gt_or_false 90 (cell_at "Marks" r)) (rows df)
                   ↔ r ∈ rows df ∧ ∃ q, cell_at "Marks" r = Num q ∧ (90 < q)%Q).
    { intros r. rewrite list_elem_of_filter. cbn beta. rewrite Is_true_true.
      unfold gt_or_false. destruct (cell_at "Marks" r) as [s|q|].
      - split; [by intros [? _]|]. by intros (_ & q & ? & _).
      - rewrite Qlt_bool_iff. split; [intros [? ?]; eauto|].
        by intros (? & q' & [= <-] & ?).
      - split; [by intros [? _]|]. by intros (_ & q & ? & _). }
    split; [done|]. split; [done|]. split; [exact Hiff|].
    intros r q Hr Hq Heq. apply Hiff in Hr as (_ & q' & Hq' & Hlt).
    rewrite Hq in Hq'. injection Hq' as <-.
    rewrite Heq in Hlt. by apply Qlt_irrefl in Hlt.
  - by rewrite bool_decide_eq_false_2.
Qed.

(** ** Search by name (claim C6) *)

Lemma re_compile_plain (q : string) : plain q = true → re_compile q = Ok (lits q).
Proof.
  induction q as [|a q IH]; [done|]. cbn [plain re_compile lits].
  intros [Ha Hq]%andb_true_iff. rewrite (IH Hq).
  apply negb_true_iff, bool_decide_eq_false in Ha.
  unfold compile_char.
  rewrite bool_decide_eq_false_2.
  - by rewrite bool_decide_eq_false_2.
  - intros ->. apply Ha. by left.
Qed.

Lemma match_here_lits (q s : string) :
  match_here (lits q) s = true ↔ ∃ post, lower_string s = lower_string q +:+ post.
Proof.
  revert s. induction q as [|a q IH]; intros s.
  - split; [|done]. intros _. by exists (lower_string s).
  - destruct s as [|ch s]; cbn [lits match_here lower_string String.append].
    + split; [done|]. by intros [post ?].
    + rewrite andb_true_iff, IH. unfold atom_matches.
      rewrite bool_decide_eq_true. split.
      * intros [-> [post ->]]. by exists post.
      * intros [post [= -> ->]]. eauto.
Qed.

Lemma re_search_lits (q s : string) :
  re_search (lits q) s = true ↔ contains_ci q s.
Proof.
  unfold contains_ci. induction s as [|ch s IH].
  - cbn [re_search]. rewrite orb_false_r, match_here_lits. split.
    + intros [post Hpost]. by exists EmptyString, post.
    + intros (pre & post & Heq). destruct pre as [|x pre]; [|done].
      by exists post.
  - cbn [re_search]. rewrite orb_true_iff, match_here_lits, IH.
    cbn [lower_string]. split.
    + intros [[post Hpost]|(pre & post & Heq)].
      * by exists EmptyString, post.
      * exists (String (lower ch) pre), post. cbn. by rewrite Heq.
    + intros (pre & post & Heq). destruct pre as [|x pre].
      * left. by exists post.
      * right. injection Heq as _ Heq. eauto.
Qed.

Lemma str_accessor_Ok (name : string) (rs : list Row) :
  has_strings name rs → str_accessor (cell_at name <$> rs) = Ok ().
Proof.
  intros [->|(r & s & Hr & Hs)]; [done|]. unfold str_accessor.
  destruct (cell_at name <$> rs) as [|c col] eqn:Hcol.
  { destruct rs; [by apply elem_of_nil in Hr|done]. }
  assert (Hex : existsb is_str (c :: col) = true); [|by rewrite Hex].
  apply existsb_exists. exists (Str s). split; [|done].
  rewrite <- Hcol. apply list_elem_of_In, list_elem_of_fmap. eauto.
Qed.

(** C6, as amended.  With an empty query, or without a Name column, no
    search is made and no record is returned.  On ASCII text, that is when
    the query and every name of the table consist of ASCII characters: with
    a non-empty query free of regular-expression special characters, on a
    Name column that holds strings, the result has the header of the base
    table and exactly its records whose Name is a string containing the
    query once the case of the letters A-Z is ignored, in the original
    order.  (Outside ASCII the case folding of [re.IGNORECASE] reaches
    letters that [lower] leaves alone, and nothing is stated.) *)
Theorem search_result_spec (df : DataFrame) (q : string) :
  search_result df EmptyString = Ok None
  ∧ ("Name" ∉ columns df → search_result df q = Ok None)
  ∧ (q ≠ EmptyString → plain q = true → ascii_only q = true →
     "Name" ∈ columns df → has_strings "Name" (rows df) →
     ascii_names (rows df) →
     ∃ V, search_result df q = Ok (Some V)
        ∧ columns V = columns df
        ∧ rows V = filter (λ r, name_matches q r) (rows df)
        ∧ rows V `sublist_of` rows df
        ∧ ∀ r, r ∈ rows V ↔
               r ∈ rows df ∧ ∃ s, cell_at "Name" r = Str s ∧ contains_ci q s).
Proof.
  split; [done|]. split.
  - intros Hnot. unfold search_result, has_column.
    by rewrite bool_decide_eq_false_2, andb_false_r.
  - intros Hq Hplain _ Hin Hstr _. unfold search_result, has_column.
    apply String.eqb_neq in Hq. rewrite Hq, bool_decide_eq_true_2 by done.
    cbn [negb andb]. rewrite getitem_present, bind_Ok by done.
    unfold str_contains.
    rewrite str_accessor_Ok, bind_Ok, re_compile_plain, !bind_Ok by done.
    rewrite (loc_fmap df "Name"
               (λ c, match c with Str s => re_search (lits q) s | _ => false end)).
    eexists. split; [done|]. cbn [columns rows].
    split; [done|]. split; [done|]. split; [apply sublist_filter|].
    intros r. rewrite list_elem_of_filter. cbn beta. rewrite Is_true_true.
    unfold name_matches. destruct (cell_at "Name" r) as [s|x|].
    + rewrite re_search_lits. split; [intros [? ?]; eauto|].
      by intros (? & s' & [= <-] & ?).
    + split; [by intros [? _]|]. by intros (_ & s & ? & _).
    + split; [by intros [? _]|]. by intros (_ & s & ? & _).
Qed.

(** ** Loading (claim C7) *)

Lemma cell_at_insert (k k' : string) (v : cell) (r : Row) :
  cell_at k (<[k' := v]> r) = if decide (k' = k) then v else cell_at k r.
Proof.
  unfold cell_at. rewrite lookup_insert. by case_decide.
Qed.

Lemma cell_at_fillna_step (values : gmap string cell) (r acc : Row) (k k' : string) :
  k' ≠ k → cell_at k (fillna_step values r k' acc) = cell_at k acc.
Proof.
  intros Hne. unfold fillna_step. destruct (values !! k'); [|done].
  by rewrite cell_at_insert, decide_False.
Qed.

Lemma cell_at_fillna_row (cols : list string) (values : gmap string cell)
    (r : Row) (k : string) :
  cell_at k (fillna_row cols values r)
  = if decide (k ∈ cols) then
      match values !! k with
      | Some v => fillna_cell v (cell_at k r)
      | None => cell_at k r
      end
    else cell_at k r.
Proof.
  unfold fillna_row. induction cols as [|k' cols IH]; cbn [foldr].
  - by rewrite decide_False by apply not_elem_of_nil.
  - destruct (decide (k' = k)) as [->|Hne].
    + rewrite decide_True by (by left). unfold fillna_step at 1.
      destruct (values !! k) as [v|] eqn:Hv.
      * by rewrite cell_at_insert, decide_True.
      * rewrite IH. by case_decide.
    + rewrite cell_at_fillna_step, IH by done.
      destruct (decide (k ∈ cols)) as [Hin|Hnin].
      * by rewrite decide_True by (by right).
      * rewrite decide_False; [done|].
        intros [?|?]%elem_of_cons; [by subst|done].
Qed.

Lemma setitem_fmap (df : DataFrame) (name : string) (f : cell → cell) :
  setitem df name (f <$> (cell_at name <$> rows df))
  = {| columns := columns df;
       rows := (λ r, <[name := f (cell_at name r)]> r) <$> rows df |}.
Proof.
  unfold setitem. f_equal. rewrite <- list_fmap_compose.
  induction (rows df) as [|r rs IH]; [done|]. cbn. by rewrite IH.
Qed.

Section LoadingProperties.

Variable parse_number : string → option Q.

Lemma coerce_column_Ok (name : string) (df : DataFrame) :
  coerce_column parse_number name df
  = Ok {| columns := columns df;
          rows := coerce_row parse_number (has_column df name) name <$> rows df |}.
Proof.
  unfold coerce_column, coerce_row.
  destruct (has_column df name) eqn:Hc.
  - unfold getitem. rewrite Hc, bind_Ok.
    rewrite <- list_fmap_compose.
    by rewrite (setitem_fmap df name (fillna_cell (Num 0) ∘ to_numeric parse_number)).
  - f_equal. rewrite list_fmap_id. by destruct df.
Qed.

Lemma load_Ok (raw : DataFrame) :
  load parse_number (Some raw)
  = Ok {| columns := columns raw;
          rows := clean_row parse_number (columns raw) <$> rows raw |}.
Proof.
  unfold load. rewrite coerce_column_Ok, bind_Ok, coerce_column_Ok.
  cbn [columns rows fillna]. unfold clean_row, has_column. cbn [columns].
  by rewrite <- !list_fmap_compose.
Qed.

Lemma fill_values_other (name : string) :
  name ∉ numeric_columns → name ∉ text_columns → fill_values !! name = None.
Proof.
  unfold numeric_columns, text_columns, fill_values. intros Hn Ht.
  rewrite !lookup_insert_ne, lookup_singleton_ne; [done|..];
    intros <-;
    first [by apply Hn; repeat constructor|by apply Ht; repeat constructor].
Qed.

Lemma clean_row_numeric (cols : list string) (r : Row) (name : string) :
  name ∈ numeric_columns → name ∈ cols →
  cell_at name (clean_row parse_number cols r)
  = fillna_cell (Num 0) (to_numeric parse_number (fillna_cell (Num 0) (cell_at name r))).
Proof.
  intros Hn Hin. unfold clean_row, coerce_row.
  assert (Hm : fill_values !! "Marks" = Some (Num 0)) by (vm_compute; reflexivity).
  assert (Ha : fill_values !! "Attendance" = Some (Num 0)) by (vm_compute; reflexivity).
  apply elem_of_cons in Hn as [->|Hn].
  - rewrite (bool_decide_eq_true_2 ("Marks" ∈ cols)) by done.
    case_bool_decide.
    + rewrite cell_at_insert, decide_False, cell_at_insert, decide_True by done.
      by rewrite cell_at_fillna_row, decide_True, Hm.
    + rewrite cell_at_insert, decide_True by done.
      by rewrite cell_at_fillna_row, decide_True, Hm.
  - apply list_elem_of_singleton in Hn as ->.
    rewrite (bool_decide_eq_true_2 ("Attendance" ∈ cols)) by done.
    rewrite cell_at_insert, decide_True by done.
    case_bool_decide.
    + rewrite cell_at_insert, decide_False by done.
      by rewrite cell_at_fillna_row, decide_True, Ha.
    + by rewrite cell_at_fillna_row, decide_True, Ha.
Qed.

Lemma clean_row_untouched (cols : list string) (r : Row) (name : string) :
  name ∉ numeric_columns →
  cell_at name (clean_row parse_number cols r)
  = cell_at name (fillna_row cols fill_values r).
Proof.
  intros Hn. unfold clean_row, coerce_row.
  assert (Hm : "Marks" ≠ name).
  { intros <-. apply Hn. by left. }
  assert (Ha : "Attendance" ≠ name).
  { intros <-. apply Hn. by right; left. }
  repeat case_bool_decide; by rewrite ?cell_at_insert, ?decide_False.
Qed.

Lemma text_not_numeric (name : string) :
  name ∈ text_columns → name ∉ numeric_columns.
Proof.
  unfold text_columns, numeric_columns.
  rewrite !elem_of_cons, !elem_of_nil. intros Ht Hn.
  destruct Ht as [->|[->|[->|[->|[]]]]]; by destruct Hn as [?|[?|[]]].
Qed.

Lemma fill_values_text (name : string) :
  name ∈ text_columns → fill_values !! name = Some (Str "Unknown").
Proof.
  unfold text_columns. rewrite !elem_of_cons, !elem_of_nil.
  intros [->|[->|[->|[->|[]]]]]; by vm_compute.
Qed.

Lemma clean_row_text (cols : list string) (r : Row) (name : string) :
  name ∈ text_columns → name ∈ cols →
  cell_at name (clean_row parse_number cols r)
  = fillna_cell (Str "Unknown") (cell_at name r).
Proof.
  intros Ht Hin. rewrite clean_row_untouched by (by apply text_not_numeric).
  by rewrite cell_at_fillna_row, decide_True, fill_values_text.
Qed.

Lemma clean_row_other (cols : list string) (r : Row) (name : string) :
  (name ∉ cols) ∨ ((name ∉ numeric_columns) ∧ (name ∉ text_columns)) →
  cell_at name (clean_row parse_number cols r) = cell_at name r.
Proof.
  intros Hcase.
  assert (Hfill : cell_at name (fillna_row cols fill_values r) = cell_at name r).
  { rewrite cell_at_fillna_row. case_decide as Hin; [|done].
    destruct Hcase as [?|[Hn Ht]]; [done|]. by rewrite fill_values_other. }
  destruct Hcase as [Hnin|[Hn _]].
  - unfold clean_row, coerce_row. rewrite !bool_decide_decide.
    repeat case_decide; rewrite ?cell_at_insert; repeat case_decide;
      simplify_eq; by rewrite ?Hfill.
  - by rewrite clean_row_untouched.
Qed.

End LoadingProperties.

(** C7.  Loading an existing source never raises.  The result has the
    header and the number of rows of the source, and row [i] is source row
    [i] cleaned: in a Marks or Attendance column, a missing value and a
    string that does not parse as a number become 0, while numbers and
    parsable strings keep their value; in a Name, Course, City or Gender
    column, a missing value becomes "Unknown" and any other value is kept;
    every other cell is unchanged. *)
Theorem load_cleans (parse_number : string → option Q) (raw : DataFrame) :
  ∃ df, load parse_number (Some raw) = Ok df
      ∧ columns df = columns raw
      ∧ length (rows df) = length (rows raw)
      ∧ ∀ i r, rows raw !! i = Some r →
          ∃ r', rows df !! i = Some r'
            ∧ (∀ name, name ∈ numeric_columns → name ∈ columns raw →
                 (cell_at name r = NaN → cell_at name r' = Num 0)
                 ∧ (∀ s, cell_at name r = Str s → parse_number s = None →
                      cell_at name r' = Num 0)
                 ∧ (∀ s q, cell_at name r = Str s → parse_number s = Some q →
                      cell_at name r' = Num q)
                 ∧ (∀ q, cell_at name r = Num q → cell_at name r' = Num q))
            ∧ (∀ name, name ∈ text_columns → name ∈ columns raw →
                 (cell_at name r = NaN → cell_at name r' = Str "Unknown")
                 ∧ (cell_at name r ≠ NaN → cell_at name r' = cell_at name r))
            ∧ (∀ name,
                 (name ∉ columns raw)
                 ∨ ((name ∉ numeric_columns) ∧ (name ∉ text_columns)) →
                 cell_at name r' = cell_at name r).
Proof.
  eexists. split; [apply load_Ok|]. cbn [columns rows].
  split; [done|]. split; [by rewrite length_fmap|].
  intros i r Hi. exists (clean_row parse_number (columns raw) r).
  split; [by rewrite list_lookup_fmap, Hi|].
  split; [|split].
  - intros name Hn Hin. rewrite clean_row_numeric by done.
    split; [by intros ->|]. split; [|split].
    + intros s -> Hs. cbn. by rewrite Hs.
    + intros s q -> Hs. cbn. by rewrite Hs.
    + by intros q ->.
  - intros name Ht Hin. rewrite clean_row_text by done.
    split; [by intros ->|]. by destruct (cell_at name r).
  - intros name Hcase. by apply clean_row_other.
Qed.

(** A missing source stops the script. *)
Lemma load_missing (parse_number : string → option Q) :
  load parse_number None = Raise StopException.
Proof. done. Qed.

(** ** The theorems at work on the sample class *)

Lemma class_marks_numeric : no_strings "Marks" (rows class).
Proof. repeat constructor; intros s; vm_compute; discriminate. Defined.

Lemma class_from_sidebar : from_sidebar class math_in_delhi.
Proof.
  split; [|split; [|split]].
  - right. split; [repeat constructor|]. by left.
  - intros v ->%list_elem_of_singleton. split; [repeat constructor|].
    right. by left.
  - intros Hnot. destruct Hnot. repeat constructor.
  - right. by left.
Defined.

Lemma filtered_df_subsequence_witness :
  (∃ V, filtered_df class math_in_delhi = Ok V)
  ∧ [bob] `sublist_of` rows class
  ∧ satisfies math_in_delhi bob.
Proof.
  destruct (filtered_df_subsequence class math_in_delhi) as [Hview Htotal].
  split.
  - apply Htotal.
    + repeat constructor.
    + exact class_marks_numeric.
    + exact class_from_sidebar.
  - destruct (Hview {| columns := header; rows := [bob] |}) as (_ & Hsub & Hsat).
    + vm_compute. reflexivity.
    + split; [exact Hsub|]. apply Hsat. by left.
Defined.

Lemma filtered_df_complete_witness :
  ∃ V, filtered_df class math_in_delhi = Ok V ∧ bob ∈ rows V.
Proof.
  destruct (filtered_df_complete class math_in_delhi) as [_ Hview].
  destruct Hview as (V & HV & Hkept).
  - do 4 right. left.
  - exact class_marks_numeric.
  - exact class_from_sidebar.
  - exists V. split; [exact HV|]. apply Hkept.
    + do 2 right. left.
    + apply passes_satisfies. vm_compute. reflexivity.
Defined.

Lemma city_stage_spec_witness :
  city_stage identity_criteria class = Ok class
  ∧ ∃ V, city_stage math_in_delhi class = Ok V
       ∧ cell_at "Name" <$> rows V = [Str "Dan"; Str "Bob"].
Proof.
  split.
  - apply (city_stage_spec identity_criteria class). reflexivity.
  - destruct (city_stage_spec math_in_delhi class) as [_ Hsel].
    destruct Hsel as (V & HV & _ & Hrows & _).
    + discriminate.
    + do 2 right. left.
    + exists V. split; [exact HV|]. rewrite Hrows. vm_compute. reflexivity.
Defined.

(** C2 fails as stated: with marks -5 and 95 in the table the slider can
    stand at 0, and the record with the negative mark is filtered out. *)
Lemma identity_criteria_drop_negative :
  filtered_df with_negative identity_criteria
  = Ok {| columns := header; rows := [anya] |}
  ∧ filtered_df with_negative identity_criteria ≠ Ok with_negative.
Proof.
  assert (H : filtered_df with_negative identity_criteria
              = Ok {| columns := header; rows := [anya] |})
    by (vm_compute; reflexivity).
  split; [exact H|]. rewrite H. intros Heq.
  apply (f_equal (λ res, match res with
                         | Ok d => length (rows d)
                         | Raise _ => 0
                         end)) in Heq.
  discriminate.
Qed.

Lemma identity_criteria_nonnegative_witness :
  filtered_df class identity_criteria = Ok class.
Proof.
  apply identity_criteria_nonnegative.
  - repeat constructor.
  - repeat constructor; eexists; (split; [vm_compute; reflexivity|]);
      vm_compute; discriminate.
Defined.

Lemma filtered_df_without_marks_witness :
  filtered_df without_marks identity_criteria = Raise (KeyError "Marks").
Proof.
  apply filtered_df_without_marks.
  - unfold without_marks. cbn [columns].
    rewrite !elem_of_cons, elem_of_nil. intros H.
    repeat (destruct H as [H|H]; [discriminate|]). exact H.
  - split; [by left|]. split; [by intros v ?%elem_of_nil|].
    split; [done|].
    assert (has_column without_marks "Gender" = true) as ->
      by (vm_compute; reflexivity).
    by left.
Defined.

Lemma tier_by_computed_average_witness :
  ∃ m t, key_metrics mean64 class class = Ok (Some m, t)
       ∧ avg_marks m = Num (mean64 [95; 90; 91]%Q)
       ∧ t = Excellent.
Proof.
  destruct (tier_by_computed_average mean64 class class [95; 90; 91]%Q)
    as (m & t & Hkm & Havg & _ & Hexc & _).
  - discriminate.
  - do 4 right. left.
  - vm_compute. reflexivity.
  - reflexivity.
  - repeat constructor; intros s; vm_compute; discriminate.
  - exists m, t. split; [exact Hkm|]. split; [exact Havg|].
    apply Hexc. vm_compute. reflexivity.
Defined.

(** C4 fails as stated: the four marks below (the float64 values nearest to
    91.2, 92.6, 84.4 and 71.8) have an arithmetic mean of exactly 85, but
    their float64 sum is rounded up, the computed average lies above 85 and
    the message is Excellent, not Good. *)
Lemma exact_mean_85_shown_excellent :
  cell_at "Marks" <$> rows rounding_view = Num <$> rounding_marks
  ∧ (Qmean rounding_marks == 85)%Q
  ∧ (85 < mean64 rounding_marks)%Q
  ∧ ∃ m, key_metrics mean64 rounding_view rounding_view = Ok (Some m, Excellent).
Proof.
  split; [vm_compute; reflexivity|]. split; [vm_compute; reflexivity|].
  split; [vm_compute; reflexivity|].
  eexists. vm_compute. reflexivity.
Qed.

(** The boundaries of the message: 85 and 70 are Good, 86 is Excellent, and
    the marks 90, 80, 70 average to 80, with nothing to round. *)
Example message_at_85 : snd <$> (match key_metrics mean64 (single 85) (single 85) with Ok o => Some o | Raise _ => None end) = Some Good.
Proof. vm_compute. reflexivity. Qed.

Example message_at_86 : snd <$> (match key_metrics mean64 (single 86) (single 86) with Ok o => Some o | Raise _ => None end) = Some Excellent.
Proof. vm_compute. reflexivity. Qed.

Example message_at_70 : snd <$> (match key_metrics mean64 (single 70) (single 70) with Ok o => Some o | Raise _ => None end) = Some Good.
Proof. vm_compute. reflexivity. Qed.

Example message_below_70 : performance_message (Num (139 # 2)) = Ok NeedsImprovement.
Proof. vm_compute. reflexivity. Qed.

Example mean_90_80_70 :
  (Qmean [90; 80; 70] == 80)%Q ∧ (mean64 [90; 80; 70] == 80)%Q
  ∧ performance_message (Num (mean64 [90; 80; 70]%Q)) = Ok Good.
Proof. repeat split; vm_compute; reflexivity. Qed.

(** C5 fails as stated: on the empty view the script binds no average and
    no count, so there is no summary of zeros; only the no-match message. *)
Lemma empty_view_has_no_metrics :
  key_metrics mean64 class nobody = Ok (None, NoMatch)
  ∧ key_metrics mean64 class nobody
    ≠ Ok (Some {| avg_marks := Num 0; avg_attendance := Num 0;
                  total_students := 0 |}, NoMatch).
Proof. split; [reflexivity|discriminate]. Qed.

Lemma no_match_iff_empty_witness :
  filtered_df class nobody_qualifies = Ok nobody
  ∧ key_metrics mean64 class nobody = Ok (None, NoMatch).
Proof.
  assert (H : filtered_df class nobody_qualifies = Ok nobody)
    by (vm_compute; reflexivity).
  split; [exact H|].
  apply (no_match_iff_empty mean64 class nobody_qualifies nobody H). reflexivity.
Defined.

Lemma top_students_spec_witness :
  ∃ V, top_students class = Ok (Some V)
     ∧ cell_at "Marks" <$> rows V = [Num 95; Num 91].
Proof.
  destruct (top_students_spec class class_marks_numeric) as [Hshown _].
  destruct Hshown as (V & HV & _ & Hrows & _).
  - do 4 right. left.
  - exists V. split; [exact HV|]. rewrite Hrows. vm_compute. reflexivity.
Defined.

Lemma not_contains_dot_Bob : ¬ contains_ci "." "Bob".
Proof.
  intros (pre & post & Heq). cbn in Heq.
  destruct pre as [|a1 pre]; [discriminate|]. injection Heq as _ Heq.
  destruct pre as [|a2 pre]; [discriminate|]. injection Heq as _ Heq.
  destruct pre as [|a3 pre]; [discriminate|]. injection Heq as _ Heq.
  destruct pre as [|a4 pre]; discriminate.
Qed.

(** C6 fails as stated: the query is compiled as a regular expression, so
    ["."] finds Bob, whose name contains no dot. *)
Lemma search_dot_finds_bob :
  (∃ V, search_result class "." = Ok (Some V) ∧ bob ∈ rows V)
  ∧ cell_at "Name" bob = Str "Bob"
  ∧ ¬ contains_ci "." "Bob".
Proof.
  split; [|split; [reflexivity|exact not_contains_dot_Bob]].
  exists class. split; [vm_compute; reflexivity|]. do 2 right. left.
Qed.

Lemma search_result_spec_witness :
  ∃ V, search_result class "an" = Ok (Some V)
     ∧ cell_at "Name" <$> rows V = [Str "Anya"; Str "Dan"].
Proof.
  destruct (search_result_spec class "an") as (_ & _ & Hfound).
  destruct Hfound as (V & HV & _ & Hrows & _).
  - discriminate.
  - reflexivity.
  - reflexivity.
  - left.
  - right. exists anya, "Anya". split; [left|reflexivity].
  - repeat constructor; intros s [= <-]; reflexivity.
  - exists V. split; [exact HV|]. rewrite Hrows. vm_compute. reflexivity.
Defined.

Lemma load_cleans_witness :
  parse_digits "abc" = None
  ∧ ∃ df r', load parse_digits (Some raw_source) = Ok df
           ∧ rows df !! 0 = Some r'
           ∧ cell_at "Marks" r' = Num 0
           ∧ cell_at "Course" r' = Str "Unknown".
Proof.
  split; [reflexivity|].
  destruct (load_cleans parse_digits raw_source) as (df & Hdf & _ & _ & Hrow).
  destruct (Hrow 0 (row_of [("Name", Str "Anya"); ("Course", NaN);
                            ("Marks", Str "abc"); ("Attendance", Str "90")]))
    as (r' & Hr' & Hnum & Htext & _); [reflexivity|].
  exists df, r'. split; [exact Hdf|]. split; [exact Hr'|]. split.
  - destruct (Hnum "Marks") as (_ & Hbad & _).
    + left.
    + do 2 right. left.
    + apply (Hbad "abc"); reflexivity.
  - destruct (Htext "Course") as (Hmissing & _).
    + left.
    + right. left.
    + apply Hmissing. reflexivity.
Defined.

(** * Further properties of the script *)

(** ** What loading guarantees to the later sections *)

Lemma cleaned_is_number (parse_number : string → option Q) (c : cell) :
  ∃ q, fillna_cell (Num 0) (to_numeric parse_number (fillna_cell (Num 0) c)) = Num q.
Proof.
  destruct c as [s|q|]; cbn; [|eauto..].
  destruct (parse_number s); cbn; eauto.
Qed.

Lemma cell_at_lookup (k : string) (r : Row) :
  cell_at k r ≠ NaN → r !! k = Some (cell_at k r).
Proof. unfold cell_at. by destruct (r !! k). Qed.

Lemma load_rows (parse_number : string → option Q) (raw df : DataFrame) :
  load parse_number (Some raw) = Ok df →
  columns df = columns raw
  ∧ rows df = clean_row parse_number (columns raw) <$> rows raw.
Proof. rewrite load_Ok. by intros [= <-]. Qed.

Lemma loaded_columns_clean_aux (parse_number : string → option Q) (raw df : DataFrame) :
  load parse_number (Some raw) = Ok df →
  columns df = columns raw
  ∧ ∀ name, name ∈ numeric_columns → name ∈ columns df →
      Forall (λ r, ∃ q, cell_at name r = Num q) (rows df).
Proof.
  intros [Hcols Hrows]%load_rows. split; [done|]. rewrite Hcols, Hrows.
  intros name Hname Hin. apply Forall_fmap, Forall_forall. intros r _. cbn.
  rewrite clean_row_numeric by done. apply cleaned_is_number.
Qed.

(** X1.  In a loaded table, a Marks or Attendance column holds numbers
    only, and a Name, Course, City or Gender column holds no missing value. *)
Theorem loaded_columns_clean (parse_number : string → option Q) (raw df : DataFrame) :
  load parse_number (Some raw) = Ok df →
  (∀ name, name ∈ numeric_columns → name ∈ columns df →
     Forall (λ r, ∃ q, cell_at name r = Num q) (rows df))
  ∧ (∀ name, name ∈ text_columns → name ∈ columns df →
     Forall (λ r, cell_at name r ≠ NaN) (rows df)).
Proof.
  intros [Hcols Hrows]%load_rows. rewrite Hcols, Hrows.
  split; intros name Hname Hin; apply Forall_fmap, Forall_forall; intros r _; cbn.
  - rewrite clean_row_numeric by done. apply cleaned_is_number.
  - rewrite clean_row_text by done. by destruct (cell_at name r).
Qed.

Lemma fill_values_known (name : string) (v : cell) :
  fill_values !! name = Some v → name ∈ numeric_columns ∨ name ∈ text_columns.
Proof.
  intros Hv. destruct (decide (name ∈ numeric_columns)) as [|Hn]; [by left|].
  destruct (decide (name ∈ text_columns)) as [|Ht]; [by right|].
  by rewrite fill_values_other in Hv.
Qed.

Lemma fillna_row_fixed (cols : list string) (r : Row) :
  (∀ k v, k ∈ cols → fill_values !! k = Some v → cell_at k r ≠ NaN) →
  fillna_row cols fill_values r = r.
Proof.
  unfold fillna_row. induction cols as [|k cols IH]; intros Hfull; [done|].
  cbn [foldr]. rewrite IH by (intros k' v ?; apply Hfull; by right).
  unfold fillna_step. destruct (fill_values !! k) as [v|] eqn:Hv; [|done].
  assert (Hk : cell_at k r ≠ NaN) by (eapply Hfull; [by left|done]).
  replace (fillna_cell v (cell_at k r)) with (cell_at k r)
    by (by destruct (cell_at k r)).
  by apply insert_id, cell_at_lookup.
Qed.

Lemma coerce_row_fixed (parse_number : string → option Q) (b : bool)
    (name : string) (r : Row) (q : Q) :
  cell_at name r = Num q → coerce_row parse_number b name r = r.
Proof.
  intros Hq. unfold coerce_row. destruct b; [|done]. rewrite Hq. cbn.
  apply insert_id. rewrite <- Hq. apply cell_at_lookup. by rewrite Hq.
Qed.

Lemma clean_row_idempotent (parse_number : string → option Q)
    (cols : list string) (r : Row) :
  clean_row parse_number cols (clean_row parse_number cols r)
  = clean_row parse_number cols r.
Proof.
  set (r' := clean_row parse_number cols r).
  assert (Hfill : fillna_row cols fill_values r' = r').
  { apply fillna_row_fixed. intros k v Hk [Hn|Ht]%fill_values_known; unfold r'.
    - rewrite clean_row_numeric by done.
      by destruct (cleaned_is_number parse_number (cell_at k r)) as [q ->].
    - rewrite clean_row_text by done. by destruct (cell_at k r). }
  unfold clean_row at 1. rewrite Hfill.
  assert (Hstep : ∀ name, name ∈ numeric_columns →
            coerce_row parse_number (bool_decide (name ∈ cols)) name r' = r').
  { intros name Hn. case_bool_decide as Hin; [|done].
    destruct (cleaned_is_number parse_number (cell_at name r)) as [q Hq].
    apply (coerce_row_fixed _ _ _ _ q). unfold r'.
    by rewrite clean_row_numeric. }
  rewrite (Hstep "Marks") by (by left).
  apply Hstep. by right; left.
Qed.

(** X2.  Cleaning is idempotent: loading a table that was itself the result
    of a load returns it unchanged. *)
Theorem load_idempotent (parse_number : string → option Q) (raw df : DataFrame) :
  load parse_number (Some raw) = Ok df →
  load parse_number (Some df) = Ok df.
Proof.
  intros [Hcols Hrows]%load_rows. rewrite load_Ok. f_equal.
  destruct df as [cols rs]. cbn in *. subst. f_equal.
  rewrite <- list_fmap_compose. apply list_fmap_ext.
  intros i r _. apply clean_row_idempotent.
Qed.

Section PipelineProperties.

Variable float_mean : list Q → Q.

Lemma mean_is_float (col : list cell) (avg : cell) :
  mean float_mean col = Ok avg → ∀ s, avg ≠ Str s.
Proof.
  unfold mean. destruct (numbers col) as [qs|e]; [|done].
  rewrite bind_Ok. intros [= <-] s. by destruct qs.
Qed.

Lemma performance_message_total (avg : cell) :
  (∀ s, avg ≠ Str s) → ∃ t, performance_message avg = Ok t.
Proof.
  intros Havg. destruct avg as [s|q|]; [by destruct (Havg s)| |by eexists].
  destruct (performance_message_Num q) as (t & Ht & _). eauto.
Qed.

Lemma key_metrics_total (df V : DataFrame) :
  "Marks" ∈ columns V → no_strings "Marks" (rows V) →
  ("Attendance" ∈ columns df →
     "Attendance" ∈ columns V ∧ no_strings "Attendance" (rows V)) →
  ∃ out, key_metrics float_mean df V = Ok out.
Proof.
  intros Hin Hmarks Hatt. unfold key_metrics.
  destruct (negb (empty V)); [|eauto].
  rewrite (getitem_present V "Marks"), bind_Ok by done.
  destruct (mean_total float_mean (cell_at "Marks" <$> rows V)) as [avg_m Hm];
    [by apply Forall_fmap|].
  rewrite Hm, bind_Ok.
  assert (∃ avg_a, (if has_column df "Attendance"
                    then att ← getitem V "Attendance"; mean float_mean att
                    else Ok (Num 0)) = Ok avg_a) as [avg_a ->].
  { unfold has_column. case_bool_decide as Hc; [|eauto].
    destruct (Hatt Hc) as [HinV HnumV].
    rewrite getitem_present, bind_Ok by done.
    apply mean_total. by apply Forall_fmap. }
  rewrite bind_Ok.
  destruct (performance_message_total avg_m) as [t ->];
    [by eapply mean_is_float|].
  rewrite bind_Ok. eauto.
Qed.

Lemma numbers_no_strings (name : string) (rs : list Row) :
  Forall (λ r, ∃ q, cell_at name r = Num q) rs → no_strings name rs.
Proof.
  intros Hnum. eapply Forall_impl; [exact Hnum|].
  intros r [q Hq] s. by rewrite Hq.
Qed.

(** X3.  On a table loaded from a source that has a Marks column, the
    filter statements and the metrics section raise nothing, whatever the
    sidebar handed over. *)
Theorem loaded_table_filters_and_summarises
    (parse_number : string → option Q) (raw df : DataFrame) (c : FilterCriteria) :
  load parse_number (Some raw) = Ok df →
  "Marks" ∈ columns raw → from_sidebar df c →
  ∃ V out, filtered_df df c = Ok V ∧ key_metrics float_mean df V = Ok out.
Proof.
  intros Hload Hin Hside.
  destruct (loaded_columns_clean_aux parse_number raw df Hload) as [Hcols Hnum].
  rewrite <- Hcols in Hin.
  assert (Hmarks : no_strings "Marks" (rows df)).
  { apply numbers_no_strings, Hnum; [by left|done]. }
  destruct (filtered_df_total df c Hin Hmarks Hside) as [V HV].
  exists V. pose proof HV as ->%filtered_df_Ok.
  destruct (key_metrics_total df
    {| columns := columns df; rows := filter (λ r, passes c r) (rows df) |})
    as [out Hout]; cbn [columns rows].
  - done.
  - by apply no_strings_filter.
  - intros Hatt. split; [done|].
    apply no_strings_filter, numbers_no_strings, Hnum; [by right; left|done].
  - eauto.
Qed.

End PipelineProperties.

(** ** When the filters raise, and how views compose *)

Lemma course_active (c : FilterCriteria) :
  negb (cell_eq (selected_course c) (Str "All")) = true
  ↔ selected_course c ≠ Str "All".
Proof.
  rewrite negb_true_iff, <- not_true_iff_false. by rewrite cell_eq_Str.
Qed.

Lemma gender_active (c : FilterCriteria) :
  negb (String.eqb (gender_option c) "All") = true ↔ gender_option c ≠ "All".
Proof.
  rewrite negb_true_iff, <- not_true_iff_false. by rewrite String.eqb_eq.
Qed.

Lemma getitem_runs (df : DataFrame) (name : string) :
  (∃ col, getitem df name = Ok col) ↔ name ∈ columns df.
Proof.
  split.
  - intros [col Hcol]. by apply getitem_Ok in Hcol as [? _].
  - intros Hin. rewrite getitem_present by done. eauto.
Qed.

Lemma course_stage_runs (c : FilterCriteria) (fdf : DataFrame) :
  (∃ V, course_stage c fdf = Ok V)
  ↔ (selected_course c ≠ Str "All" → "Course" ∈ columns fdf).
Proof.
  rewrite <- course_active, <- getitem_runs. unfold course_stage.
  destruct (negb _); [|split; [done|eauto]].
  destruct (getitem fdf "Course") as [col|e]; cbn.
  - split; eauto.
  - split; [by intros [V ?]|]. intros H. by destruct H as [col ?].
Qed.

Lemma city_stage_runs (c : FilterCriteria) (fdf : DataFrame) :
  (∃ V, city_stage c fdf = Ok V)
  ↔ (selected_cities c ≠ [] → "City" ∈ columns fdf).
Proof.
  rewrite <- getitem_runs. unfold city_stage.
  destruct (selected_cities c) as [|v vs]; [split; [done|eauto]|].
  destruct (getitem fdf "City") as [col|e]; cbn.
  - split; eauto.
  - split; [by intros [V ?]|]. intros H. by destruct H as [col ?].
Qed.

Lemma gender_stage_runs (c : FilterCriteria) (fdf : DataFrame) :
  (∃ V, gender_stage c fdf = Ok V)
  ↔ (gender_option c ≠ "All" → "Gender" ∈ columns fdf).
Proof.
  rewrite <- gender_active, <- getitem_runs. unfold gender_stage.
  destruct (negb _); [|split; [done|eauto]].
  destruct (getitem fdf "Gender") as [col|e]; cbn.
  - split; eauto.
  - split; [by intros [V ?]|]. intros H. by destruct H as [col ?].
Qed.

Lemma traverse_cell_ge_runs (x : Q) (col : list cell) :
  (∃ mask, traverse (cell_ge x) col = Ok mask)
  ↔ Forall (λ c, ∀ s, c ≠ Str s) col.
Proof.
  split; [|intros H; rewrite traverse_cell_ge_total by done; eauto].
  induction col as [|c col IH]; [by constructor|].
  cbn. intros [mask Hmask]. destruct c as [s|q|]; cbn in Hmask; [done| |];
    (destruct (traverse (cell_ge x) col) as [bs|e]; [|done]);
    (constructor; [done|apply IH; eauto]).
Qed.

Lemma marks_stage_runs (c : FilterCriteria) (fdf : DataFrame) :
  (∃ V, marks_stage c fdf = Ok V)
  ↔ "Marks" ∈ columns fdf ∧ no_strings "Marks" (rows fdf).
Proof.
  unfold marks_stage, no_strings. split.
  - intros [V HV].
    destruct (getitem fdf "Marks") as [col|e] eqn:Hcol; [|done].
    apply getitem_Ok in Hcol as [Hin ->]. split; [done|].
    rewrite bind_Ok in HV.
    destruct (traverse _ _) as [mask|e] eqn:Hmask; [|done].
    apply (Forall_fmap (cell_at "Marks") (λ c, ∀ s, c ≠ Str s)).
    apply (traverse_cell_ge_runs (marks_filter c)). eauto.
  - intros [Hin Hnum]. rewrite getitem_present, bind_Ok by done.
    rewrite traverse_cell_ge_total by (by apply Forall_fmap). cbn. eauto.
Qed.

Lemma filtered_df_runs (df : DataFrame) (c : FilterCriteria) :
  (∃ V, filtered_df df c = Ok V) ↔ filterable df c.
Proof.
  unfold filtered_df, filterable.
  assert (Hrows : no_strings "Marks"
            (filter (λ r, city_ok c r) (filter (λ r, course_ok c r) (rows df)))
          ↔ Forall (λ r, course_ok c r = true → city_ok c r = true →
                         ∀ s, cell_at "Marks" r ≠ Str s) (rows df)).
  { unfold no_strings. rewrite !Forall_forall. split.
    - intros H r Hr H1 H2. apply H. rewrite !list_elem_of_filter.
      by rewrite !Is_true_true.
    - intros H r. rewrite !list_elem_of_filter, !Is_true_true.
      intros (H2 & H1 & Hr). by apply H. }
  rewrite <- Hrows. clear Hrows.
  rewrite <- (course_stage_runs c df). split.
  - intros [V HV].
    destruct (course_stage c df) as [d1|e] eqn:H1; [|done].
    rewrite bind_Ok in HV.
    destruct (city_stage c d1) as [d2|e] eqn:H2; [|done].
    rewrite bind_Ok in HV.
    destruct (marks_stage c d2) as [d3|e] eqn:H3; [|done].
    rewrite bind_Ok in HV.
    pose proof H1 as ->%course_stage_Ok. pose proof H2 as ->%city_stage_Ok.
    pose proof H3 as ->%marks_stage_Ok.
    split; [eauto|].
    split; [by apply (city_stage_runs c
      {| columns := columns df; rows := filter (λ r, course_ok c r) (rows df) |}); eauto|].
    assert (Hm := proj1 (marks_stage_runs c _) (ex_intro _ _ H3)).
    destruct Hm as [Hin Hnum]. split; [done|]. split; [done|].
    by apply (gender_stage_runs c
      {| columns := columns df;
         rows := filter (λ r, marks_ok c r)
                   (filter (λ r, city_ok c r)
                      (filter (λ r, course_ok c r) (rows df))) |}); eauto.
  - intros ([d1 H1] & Hcity & Hin & Hnum & Hgender).
    rewrite H1, bind_Ok. apply course_stage_Ok in H1 as ->.
    destruct (proj2 (city_stage_runs c
      {| columns := columns df; rows := filter (λ r, course_ok c r) (rows df) |})
      Hcity) as [d2 H2].
    rewrite H2, bind_Ok. apply city_stage_Ok in H2 as ->. cbn [columns rows].
    destruct (proj2 (marks_stage_runs c
      {| columns := columns df;
         rows := filter (λ r, city_ok c r)
                   (filter (λ r, course_ok c r) (rows df)) |}))
      as [d3 H3]; [done|].
    rewrite H3, bind_Ok. apply marks_stage_Ok in H3 as ->. cbn [columns rows].
    by apply gender_stage_runs.
Qed.

(** X4.  The filter statements run through exactly when every active
    filter finds its column, the Marks column exists, and no record that
    passes the course and city stages has a string as its mark; otherwise
    they raise. *)
Theorem filtered_df_raises_iff (df : DataFrame) (c : FilterCriteria) :
  (∃ e, filtered_df df c = Raise e) ↔ ¬ filterable df c.
Proof.
  rewrite <- filtered_df_runs.
  destruct (filtered_df df c) as [V|e].
  - split; [by intros [e ?]|]. intros H. destruct H. eauto.
  - split; [by intros _ [V ?]|eauto].
Qed.

Lemma filter_passes_twice (c : FilterCriteria) (rs : list Row) :
  filter (λ r, passes c r) (filter (λ r, passes c r) rs)
  = filter (λ r, passes c r) rs.
Proof.
  rewrite list_filter_filter. apply list_filter_iff. tauto.
Qed.

(** X5.  Filtering is idempotent: applying the same criteria to the view
    they produced returns that view, without an exception. *)
Theorem filtered_df_idempotent (df : DataFrame) (c : FilterCriteria) (V : DataFrame) :
  filtered_df df c = Ok V → filtered_df V c = Ok V.
Proof.
  intros HV.
  assert (Hrun : filterable df c) by (apply filtered_df_runs; eauto).
  apply filtered_df_Ok in HV as ->.
  destruct (proj2 (filtered_df_runs
    {| columns := columns df; rows := filter (λ r, passes c r) (rows df) |} c))
    as [V' HV'].
  - destruct Hrun as (H1 & H2 & H3 & H4 & H5).
    repeat split; try done. cbn [rows].
    rewrite Forall_forall in H4. apply Forall_forall.
    intros r [_ Hr]%list_elem_of_filter. by apply H4.
  - rewrite HV'. apply filtered_df_Ok in HV' as ->. cbn [columns rows].
    by rewrite filter_passes_twice.
Qed.

(** X6.  Moving the minimum marks up, all else equal, only removes
    records: the new view is a subsequence of the old one. *)
Theorem raising_minimum_narrows (df : DataFrame) (c1 c2 : FilterCriteria)
    (V1 V2 : DataFrame) :
  selected_course c2 = selected_course c1 →
  selected_cities c2 = selected_cities c1 →
  gender_option c2 = gender_option c1 →
  (marks_filter c1 <= marks_filter c2)%Q →
  filtered_df df c1 = Ok V1 → filtered_df df c2 = Ok V2 →
  rows V2 `sublist_of` rows V1.
Proof.
  intros Hcourse Hcity Hgender Hle H1 H2.
  apply filtered_df_Ok in H1 as ->. apply filtered_df_Ok in H2 as ->.
  cbn [rows].
  assert (Himp : ∀ r, passes c2 r = true → passes c1 r = true).
  { intros r. unfold passes, course_ok, city_ok, marks_ok, gender_ok.
    rewrite Hcourse, Hcity, Hgender, !andb_true_iff.
    intros [[[? ?] Hm] ?]. repeat split; try done.
    destruct (cell_at "Marks" r) as [s|q|]; [done| |done].
    apply Qle_bool_iff. apply Qle_bool_iff in Hm. by eapply Qle_trans. }
  replace (filter (λ r, passes c2 r) (rows df))
    with (filter (λ r, passes c2 r) (filter (λ r, passes c1 r) (rows df))).
  - apply sublist_filter.
  - rewrite list_filter_filter. apply list_filter_iff. intros r.
    rewrite !Is_true_true. split; [tauto|]. intros H. split; [done|by apply Himp].
Qed.

(** ** The metrics of a filtered view *)

Section ViewMetricsProperties.

Variable float_mean : list Q → Q.

Lemma numeric_column_values (name : string) (P : Q → Prop) (rs : list Row) :
  Forall (λ r, ∃ q, cell_at name r = Num q ∧ P q) rs →
  ∃ qs, cell_at name <$> rs = Num <$> qs ∧ Forall P qs ∧ length qs = length rs.
Proof.
  induction 1 as [|r rs (q & Hq & HP) _ (qs & Hqs & Hall & Hlen)].
  - by exists [].
  - exists (q :: qs). cbn. rewrite Hq, Hqs, Hlen. by repeat constructor.
Qed.

Lemma key_metrics_shown (df V : DataFrame) (qs : list Q) (m : Metrics) (t : message) :
  cell_at "Marks" <$> rows V = Num <$> qs →
  key_metrics float_mean df V = Ok (Some m, t) →
  qs ≠ []
  ∧ avg_marks m = Num (float_mean qs)
  ∧ total_students m = length (rows V)
  ∧ performance_message (Num (float_mean qs)) = Ok t.
Proof.
  intros Hmarks. unfold key_metrics.
  destruct (negb (empty V)) eqn:Hne; [|done].
  assert (Hqs : qs ≠ []).
  { intros ->. unfold empty in Hne. by destruct (rows V). }
  destruct (getitem V "Marks") as [col|e] eqn:Hcol; [|done].
  apply getitem_Ok in Hcol as [_ ->]. rewrite bind_Ok, Hmarks.
  rewrite mean_Num, bind_Ok by done.
  destruct (if has_column df "Attendance" then _ else _) as [avg_a|e]; [|done].
  rewrite bind_Ok.
  destruct (performance_message (Num (float_mean qs))) as [msg|e]; [|done].
  rewrite bind_Ok. by intros [= <- <-].
Qed.

(** X8.  The number of students shown is the number of records of the view,
    never more than the base table holds. *)
Theorem total_students_bounded (df : DataFrame) (c : FilterCriteria)
    (V : DataFrame) (m : Metrics) (t : message) :
  filtered_df df c = Ok V → key_metrics float_mean df V = Ok (Some m, t) →
  total_students m = length (rows V)
  ∧ (0 < total_students m ≤ length (rows df))%nat.
Proof.
  intros HV Hkm. pose proof HV as HVeq%filtered_df_Ok.
  assert (Hall : Forall (λ r, ∃ q, cell_at "Marks" r = Num q
                              ∧ (marks_filter c <= q)%Q) (rows V)).
  { rewrite HVeq. cbn [rows]. apply Forall_forall.
    intros r [Hp _]%list_elem_of_filter.
    apply Is_true_true, passes_satisfies in Hp. apply Hp. }
  destruct (numeric_column_values _ _ _ Hall) as (qs & Hqs & _ & Hlen).
  destruct (key_metrics_shown df V qs m t Hqs Hkm) as (Hne & _ & Htotal & _).
  split; [done|]. rewrite Htotal. split.
  - rewrite <- Hlen. destruct qs; [done|cbn; lia].
  - rewrite HVeq. cbn [rows]. apply sublist_length, sublist_filter.
Qed.

(** X9.  Unlike Marks, a missing Attendance column is harmless: on a view
    with a numeric Marks column and at least one record the metrics are
    shown, with an average attendance of 0. *)
Theorem metrics_without_attendance (df V : DataFrame) :
  "Attendance" ∉ columns df → rows V ≠ [] →
  "Marks" ∈ columns V → no_strings "Marks" (rows V) →
  ∃ m t, key_metrics float_mean df V = Ok (Some m, t) ∧ avg_attendance m = Num 0.
Proof.
  intros Hnot Hrows Hin Hnum. unfold key_metrics.
  assert (Hne : empty V = false).
  { unfold empty. destruct (rows V); [done|].
    destruct (columns V); [by apply elem_of_nil in Hin|done]. }
  rewrite Hne. cbn [negb].
  rewrite (getitem_present V "Marks"), bind_Ok by done.
  destruct (mean_total float_mean (cell_at "Marks" <$> rows V)) as [avg_m Hm];
    [by apply Forall_fmap|].
  rewrite Hm, bind_Ok. unfold has_column.
  rewrite bool_decide_eq_false_2, bind_Ok by done.
  destruct (performance_message_total avg_m) as [t ->];
    [by eapply mean_is_float|].
  rewrite bind_Ok. by eexists _, t.
Qed.

End ViewMetricsProperties.

(** ** The widgets *)

Lemma cell_same_refl (x : cell) : cell_same x x = true.
Proof.
  destruct x as [s|q|]; cbn; [apply String.eqb_refl|apply Qeq_bool_refl|done].
Qed.

Lemma isin_cons (v : cell) (vs : list cell) (x : cell) :
  isin (v :: vs) x = cell_same x v || isin vs x.
Proof. done. Qed.

Lemma unique_from_covers (seen col : list cell) (x : cell) :
  x ∈ col → isin seen x = true ∨ isin (unique_from seen col) x = true.
Proof.
  revert seen. induction col as [|c col IH]; intros seen Hx.
  { by apply elem_of_nil in Hx. }
  cbn [unique_from]. apply elem_of_cons in Hx as [->|Hx].
  - destruct (isin seen c) eqn:Hc; [by left|].
    right. by rewrite isin_cons, cell_same_refl.
  - destruct (isin seen c) eqn:Hc; [by apply IH|].
    destruct (IH (c :: seen) Hx) as [Hs|Hu].
    + rewrite isin_cons in Hs. apply orb_true_iff in Hs as [Hs|Hs]; [|by left].
      right. by rewrite isin_cons, Hs.
    + right. rewrite isin_cons, Hu. apply orb_true_r.
Qed.

Lemma unique_from_sublist (seen col : list cell) :
  unique_from seen col `sublist_of` col.
Proof.
  revert seen. induction col as [|c col IH]; intros seen; [done|].
  cbn [unique_from]. destruct (isin seen c).
  - by apply sublist_cons_r; left.
  - by apply sublist_skip || apply sublist_cons.
Qed.

Lemma unique_from_fresh (seen col : list cell) (y : cell) :
  y ∈ unique_from seen col → isin seen y = false.
Proof.
  revert seen. induction col as [|c col IH]; intros seen Hy.
  { by apply elem_of_nil in Hy. }
  cbn [unique_from] in Hy. destruct (isin seen c) eqn:Hc; [by apply IH|].
  apply elem_of_cons in Hy as [->|Hy]; [done|].
  apply IH in Hy. rewrite isin_cons in Hy. by apply orb_false_iff in Hy as [_ ?].
Qed.

Lemma unique_from_distinct (seen col : list cell) (i j : nat) (x y : cell) :
  (i < j)%nat → unique_from seen col !! i = Some x →
  unique_from seen col !! j = Some y → cell_same y x = false.
Proof.
  revert seen i j. induction col as [|c col IH]; intros seen i j Hij Hi Hj.
  { done. }
  cbn [unique_from] in Hi, Hj. destruct (isin seen c) eqn:Hc; [by eapply IH|].
  destruct j as [|j]; [lia|]. cbn in Hj. destruct i as [|i].
  - injection Hi as <-.
    assert (Hy : y ∈ unique_from (c :: seen) col)
      by (apply list_elem_of_lookup; eauto).
    apply unique_from_fresh in Hy. rewrite isin_cons in Hy.
    by apply orb_false_iff in Hy as [? _].
  - cbn in Hi. eapply (IH (c :: seen) i j); [lia|done..].
Qed.

Lemma cell_same_sym (x y : cell) : cell_same x y = cell_same y x.
Proof.
  destruct x as [s|p|], y as [t|q|]; cbn; try done.
  - apply String.eqb_sym.
  - apply Qeq_bool_comm.
Qed.

Lemma cell_same_trans (x y z : cell) :
  cell_same x y = true → cell_same y z = true → cell_same x z = true.
Proof.
  destruct x as [s|p|], y as [t|q|], z as [u|r|]; cbn; try done.
  - rewrite !String.eqb_eq. congruence.
  - apply Qeq_bool_trans.
Qed.

Lemma isin_same (vs : list cell) (x y : cell) :
  cell_same x y = true → isin vs y = true → isin vs x = true.
Proof.
  intros Hxy. rewrite !isin_spec. intros (v & Hv & Hyv).
  exists v. split; [done|]. by eapply cell_same_trans.
Qed.

Lemma unique_from_snoc (seen col : list cell) (c : cell) :
  unique_from seen (col ++ [c])%list
  = (unique_from seen col ++ (if isin seen c || isin col c then [] else [c]))%list.
Proof.
  revert seen. induction col as [|a col IH]; intros seen.
  - cbn. rewrite orb_false_r. by destruct (isin seen c).
  - cbn [app unique_from]. rewrite (isin_cons a col c).
    destruct (isin seen a) eqn:Ha.
    + rewrite IH. f_equal. destruct (cell_same c a) eqn:Hca; [|done].
      by rewrite (isin_same seen c a Hca Ha).
    + rewrite IH, (isin_cons a seen c). cbn [app]. do 2 f_equal.
      by destruct (cell_same c a), (isin seen c), (isin col c).
Qed.

Lemma unique_snoc (col : list cell) (c : cell) :
  unique (col ++ [c])%list
  = if isin col c then unique col else (unique col ++ [c])%list.
Proof.
  unfold unique. rewrite unique_from_snoc. cbn [isin existsb orb].
  destruct (isin col c); [apply app_nil_r|done].
Qed.

Lemma options_spec (name : string) (options : DataFrame → list cell) (df : DataFrame) :
  (∀ d, options d
        = if has_column d name then unique (cell_at name <$> rows d) else []) →
  (name ∉ columns df → options df = [])
  ∧ (rows df = [] → options df = [])
  ∧ (name ∈ columns df →
       (∀ r, options (append_row df r)
             = if isin (cell_at name <$> rows df) (cell_at name r)
               then options df else (options df ++ [cell_at name r])%list)
       ∧ options df `sublist_of` (cell_at name <$> rows df)
       ∧ (∀ r, r ∈ rows df → isin (options df) (cell_at name r) = true)
       ∧ (∀ i j x y, (i < j)%nat → options df !! i = Some x →
            options df !! j = Some y → cell_same y x = false)).
Proof.
  intros Hopt. unfold has_column in Hopt. split; [|split].
  - intros Hnot. by rewrite Hopt, bool_decide_eq_false_2.
  - intros Hrows. rewrite Hopt, Hrows. by case_bool_decide.
  - intros Hin. split; [|split; [|split]].
    + intros r. rewrite !Hopt. cbn [append_row columns rows].
      rewrite !bool_decide_eq_true_2 by done.
      rewrite fmap_app.
      change (cell_at name <$> [r]) with [cell_at name r].
      by rewrite unique_snoc.
    + rewrite Hopt, bool_decide_eq_true_2 by done. apply unique_from_sublist.
    + intros r Hr. rewrite Hopt, bool_decide_eq_true_2 by done.
      destruct (unique_from_covers [] (cell_at name <$> rows df) (cell_at name r))
        as [?|?]; [|done..].
      apply list_elem_of_fmap. eauto.
    + rewrite Hopt, bool_decide_eq_true_2 by done. apply unique_from_distinct.
Qed.

(** X10.  The course and city options list the values of their column in
    order of first appearance: none without the column or without records;
    appending a record to the table appends its value to the options exactly
    when no earlier record has that value, and leaves them unchanged
    otherwise.  So the options are a subsequence of the column, every
    record's value is among them, and no value is offered twice. *)
Theorem options_by_first_appearance (df : DataFrame) :
  (("Course" ∉ columns df → courses df = [])
   ∧ (rows df = [] → courses df = [])
   ∧ ("Course" ∈ columns df →
        (∀ r, courses (append_row df r)
              = if isin (cell_at "Course" <$> rows df) (cell_at "Course" r)
                then courses df else (courses df ++ [cell_at "Course" r])%list)
        ∧ courses df `sublist_of` (cell_at "Course" <$> rows df)
        ∧ (∀ r, r ∈ rows df → isin (courses df) (cell_at "Course" r) = true)
        ∧ (∀ i j x y, (i < j)%nat → courses df !! i = Some x →
             courses df !! j = Some y → cell_same y x = false)))
  ∧ (("City" ∉ columns df → cities df = [])
     ∧ (rows df = [] → cities df = [])
     ∧ ("City" ∈ columns df →
          (∀ r, cities (append_row df r)
                = if isin (cell_at "City" <$> rows df) (cell_at "City" r)
                  then cities df else (cities df ++ [cell_at "City" r])%list)
          ∧ cities df `sublist_of` (cell_at "City" <$> rows df)
          ∧ (∀ r, r ∈ rows df → isin (cities df) (cell_at "City" r) = true)
          ∧ (∀ i j x y, (i < j)%nat → cities df !! i = Some x →
               cities df !! j = Some y → cell_same y x = false))).
Proof.
  split.
  - by apply (options_spec "Course" courses).
  - by apply (options_spec "City" cities).
Qed.

Lemma cities_cover (df : DataFrame) (r : Row) :
  r ∈ rows df →
  match cities df with
  | [] => true
  | _ :: _ => isin (cities df) (cell_at "City" r)
  end = true.
Proof.
  intros Hr. unfold cities. destruct (has_column df "City"); [|done].
  assert (Hin : isin (unique (cell_at "City" <$> rows df)) (cell_at "City" r) = true).
  { destruct (unique_from_covers [] (cell_at "City" <$> rows df) (cell_at "City" r))
      as [?|?]; [|done..].
    apply list_elem_of_fmap. eauto. }
  by destruct (unique _).
Qed.

Lemma cities_need_column (df : DataFrame) : cities df ≠ [] → "City" ∈ columns df.
Proof.
  unfold cities, has_column. case_bool_decide; done.
Qed.

(** X11.  The default of the city widget, every city of the table selected,
    keeps every record: the city stage returns its input. *)
Theorem all_cities_keep_everything (df : DataFrame) (c : FilterCriteria) :
  selected_cities c = cities df → city_stage c df = Ok df.
Proof.
  intros Hsel.
  destruct (proj2 (city_stage_runs c df)) as [V HV].
  { rewrite Hsel. apply cities_need_column. }
  rewrite HV. apply city_stage_Ok in HV as ->. f_equal.
  rewrite filter_Forall_id; [apply frame_eta|].
  apply Forall_forall. intros r Hr. apply Is_true_true.
  unfold city_ok. rewrite Hsel. by apply cities_cover.
Qed.

(** X12.  A table that has a Marks column but no record stops the script in
    the sidebar: the minimum of the empty column is NaN and [int] raises
    [ValueError] on it. *)
Theorem empty_table_stops_sidebar (df : DataFrame) :
  "Marks" ∈ columns df → rows df = [] → default_widgets df = ValueError.
Proof.
  intros Hin Hrows. unfold default_widgets, default_marks_filter, slider_bounds.
  unfold has_column at 1. rewrite bool_decide_eq_true_2 by done.
  rewrite getitem_present by done. by rewrite Hrows.
Qed.

Lemma fold_min_le (q : Q) (qs : list Q) (x : Q) :
  x ∈ q :: qs → (foldr Qmin q qs <= x)%Q.
Proof.
  induction qs as [|a qs IH]; cbn [foldr].
  - intros ->%list_elem_of_singleton. apply Qle_refl.
  - intros [->|[->|Hx]%elem_of_cons]%elem_of_cons.
    + eapply Qle_trans; [apply Q.le_min_r|]. apply IH. by left.
    + apply Q.le_min_l.
    + eapply Qle_trans; [apply Q.le_min_r|]. apply IH. by right.
Qed.


Lemma fold_max_ge (q : Q) (qs : list Q) : (q <= foldr Qmax q qs)%Q.
Proof.
  induction qs as [|a qs IH]; cbn [foldr]; [apply Qle_refl|].
  eapply Qle_trans; [exact IH|]. apply Q.le_max_r.
Qed.


Lemma truncate_mono (x y : Q) : (x <= y)%Q → (truncate x <= truncate y)%Z.
Proof.
  destruct x as [nx dx], y as [ny dy]. unfold truncate, Qle. cbn. intros Hle.
  rewrite <- (Z.quot_mul_cancel_r nx (Z.pos dx) (Z.pos dy)) by lia.
  rewrite <- (Z.quot_mul_cancel_r ny (Z.pos dy) (Z.pos dx)) by lia.
  rewrite (Z.mul_comm (Z.pos dy) (Z.pos dx)).
  apply Z.quot_le_mono; lia.
Qed.


(** X13.  The slider bounds are never inverted: whenever both are
    computed, [min_marks] is at most [max_marks]. *)
Theorem slider_bounds_ordered (df : DataFrame) (min_marks max_marks : Z) :
  slider_bounds df = Chosen (min_marks, max_marks) →
  (min_marks <= max_marks)%Z.
Proof.
  unfold slider_bounds, series_min, series_max.
  destruct (getitem df "Marks") as [col|e]; [|done].
  destruct (numbers col) as [qs|e]; [|done]. rewrite !bind_Ok.
  destruct qs as [|q qs]; [done|]. intros [= <- <-].
  apply truncate_mono. eapply Qle_trans; [|apply fold_max_ge].
  apply fold_min_le. by left.
Qed.





(** ** Search and the buttons, together with the other sections *)

Lemma re_search_fold_case (q1 q2 s : string) :
  lower_string q1 = lower_string q2 →
  re_search (lits q1) s = re_search (lits q2) s.
Proof.
  intros Heq.
  assert (Hiff : re_search (lits q1) s = true ↔ re_search (lits q2) s = true).
  { rewrite !re_search_lits. unfold contains_ci. by rewrite Heq. }
  destruct (re_search (lits q1) s), (re_search (lits q2) s); try done.
  - symmetry. by apply Hiff.
  - by apply Hiff.
Qed.

(** X16.  The case of the query does not matter: two queries without
    special characters that agree once folded to lower case give the same
    search outcome on every table. *)
Theorem search_ignores_query_case (df : DataFrame) (q1 q2 : string) :
  plain q1 = true → plain q2 = true → lower_string q1 = lower_string q2 →
  search_result df q1 = search_result df q2.
Proof.
  intros H1 H2 Heq. unfold search_result.
  assert (Hempty : String.eqb q1 EmptyString = String.eqb q2 EmptyString).
  { destruct q1, q2; done. }
  rewrite Hempty. destruct (negb _ && _); [|done].
  destruct (getitem df "Name") as [col|e]; [|done]. rewrite !bind_Ok.
  unfold str_contains. destruct (str_accessor col); [|done]. rewrite !bind_Ok.
  rewrite !re_compile_plain, !bind_Ok by done.
  do 3 f_equal. apply list_fmap_ext. intros i [s|x|] _; [|done..].
  by apply re_search_fold_case.
Qed.

Lemma search_plain (df : DataFrame) (q : string) :
  q ≠ EmptyString → plain q = true → "Name" ∈ columns df →
  has_strings "Name" (rows df) →
  search_result df q
  = Ok (Some {| columns := columns df;
                rows := filter (λ r, name_matches q r) (rows df) |}).
Proof.
  intros Hq Hplain Hin Hstr. unfold search_result, has_column.
  apply String.eqb_neq in Hq. rewrite Hq, bool_decide_eq_true_2 by done.
  cbn [negb andb]. rewrite getitem_present, bind_Ok by done.
  unfold str_contains.
  rewrite str_accessor_Ok, bind_Ok, re_compile_plain, !bind_Ok by done.
  by rewrite (loc_fmap df "Name"
               (λ c, match c with Str s => re_search (lits q) s | _ => false end)).
Qed.

(** X17.  A record whose name is missing in the source is named "Unknown"
    by the load, so a search for "Unknown" returns it. *)
Theorem search_finds_missing_names (parse_number : string → option Q)
    (raw df : DataFrame) (i : nat) (r : Row) :
  load parse_number (Some raw) = Ok df → "Name" ∈ columns raw →
  rows raw !! i = Some r → cell_at "Name" r = NaN →
  ∃ V r', search_result df "Unknown" = Ok (Some V)
        ∧ rows df !! i = Some r' ∧ r' ∈ rows V.
Proof.
  intros [Hcols Hrows]%load_rows Hin Hi Hname.
  set (r' := clean_row parse_number (columns raw) r).
  assert (Hi' : rows df !! i = Some r').
  { by rewrite Hrows, list_lookup_fmap, Hi. }
  assert (Hname' : cell_at "Name" r' = Str "Unknown").
  { unfold r'. rewrite clean_row_text, Hname; [done| |done].
    do 3 right. left. }
  assert (Hr' : r' ∈ rows df) by (apply list_elem_of_lookup; eauto).
  rewrite search_plain; [|done|done|by rewrite Hcols|right; eauto].
  eexists _, r'. split; [done|]. split; [done|]. cbn [rows].
  apply list_elem_of_filter. split; [|done].
  apply Is_true_true. unfold name_matches. by rewrite Hname'.
Qed.

Lemma traverse_cell_gt (x : Q) (col : list cell) (mask : list bool) :
  traverse (cell_gt x) col = Ok mask → mask = gt_or_false x <$> col.
Proof.
  revert mask. induction col as [|c col IH]; intros mask; cbn.
  - by intros [= <-].
  - destruct c as [s|q|]; cbn; [done| |];
      (destruct (traverse (cell_gt x) col) as [bs|e]; cbn; [|done]);
      intros [= <-]; by rewrite (IH bs).
Qed.

Lemma top_students_Ok (df T : DataFrame) :
  top_students df = Ok (Some T) →
  T = {| columns := columns df;
         rows := filter (λ r, gt_or_false 90 (cell_at "Marks" r)) (rows df) |}.
Proof.
  unfold top_students. destruct (has_column df "Marks"); [|done].
  destruct (getitem df "Marks") as [col|e] eqn:Hcol; [|done].
  apply getitem_Ok in Hcol as [_ ->]. rewrite bind_Ok.
  destruct (traverse _ _) as [mask|e] eqn:Hmask; [|done].
  apply traverse_cell_gt in Hmask as ->. rewrite bind_Ok. intros [= <-].
  by rewrite (loc_fmap df "Marks" (gt_or_false 90)).
Qed.

(** X18.  Once the filter statements have run through, the table has a
    Marks column, so the later guards on it always hold: the button never
    shows its "Marks column not available" warning. *)
Theorem marks_warning_unreachable (df : DataFrame) (c : FilterCriteria) (V : DataFrame) :
  filtered_df df c = Ok V →
  has_column df "Marks" = true ∧ top_students df ≠ Ok None.
Proof.
  intros HV. pose proof (filtered_df_has_marks df c V HV) as Hin.
  apply filtered_df_Ok in HV as ->. cbn [columns] in Hin.
  assert (Hcol : has_column df "Marks" = true).
  { unfold has_column. by apply bool_decide_eq_true_2. }
  split; [done|]. unfold top_students. rewrite Hcol.
  destruct (getitem df "Marks") as [col|e]; [|done]. rewrite bind_Ok.
  by destruct (traverse (cell_gt 90) col).
Qed.

(** X19.  With course, city and gender left neutral and a minimum of at
    most 90, every top performer is in the filtered view, in the same
    order. *)
Theorem top_students_in_view (df : DataFrame) (c : FilterCriteria) (V T : DataFrame) :
  selected_course c = Str "All" → selected_cities c = [] →
  gender_option c = "All" → (marks_filter c <= 90)%Q →
  filtered_df df c = Ok V → top_students df = Ok (Some T) →
  rows T `sublist_of` rows V.
Proof.
  intros Hcourse Hcity Hgender Hle HV HT.
  apply filtered_df_Ok in HV as ->. apply top_students_Ok in HT as ->.
  cbn [rows].
  replace (filter (λ r, gt_or_false 90 (cell_at "Marks" r)) (rows df))
    with (filter (λ r, gt_or_false 90 (cell_at "Marks" r))
            (filter (λ r, passes c r) (rows df))).
  - apply sublist_filter.
  - rewrite list_filter_filter. apply list_filter_iff. intros r.
    rewrite !Is_true_true. split; [tauto|]. intros Htop. split; [done|].
    unfold passes, course_ok, city_ok, marks_ok, gender_ok.
    rewrite Hcourse, Hcity, Hgender. cbn.
    unfold gt_or_false in Htop. destruct (cell_at "Marks" r) as [s|q|]; [done| |done].
    rewrite andb_true_r. apply Qle_bool_iff.
    apply Qlt_bool_iff in Htop. eapply Qle_trans; [exact Hle|].
    by apply Qlt_le_weak.
Qed.

(** ** The further properties at work on the samples *)

Lemma cleaned_source_loaded : load parse_digits (Some raw_source) = Ok cleaned_source.
Proof. apply load_Ok. Defined.

Lemma loaded_columns_clean_witness :
  Forall (λ r, ∃ q, cell_at "Marks" r = Num q) (rows cleaned_source).
Proof.
  destruct (loaded_columns_clean parse_digits raw_source cleaned_source
              cleaned_source_loaded) as [Hnum _].
  apply Hnum; [left|do 2 right; left].
Defined.

Lemma load_idempotent_witness :
  load parse_digits (Some cleaned_source) = Ok cleaned_source.
Proof.
  exact (load_idempotent parse_digits raw_source cleaned_source cleaned_source_loaded).
Defined.

Lemma cleaned_source_sidebar : from_sidebar cleaned_source identity_criteria.
Proof.
  split; [by left|]. split; [by intros v ?%elem_of_nil|]. split; [done|].
  reflexivity.
Defined.

Lemma loaded_table_filters_and_summarises_witness :
  ∃ V out, filtered_df cleaned_source identity_criteria = Ok V
         ∧ key_metrics mean64 cleaned_source V = Ok out.
Proof.
  apply (loaded_table_filters_and_summarises mean64 parse_digits raw_source).
  - exact cleaned_source_loaded.
  - do 2 right. left.
  - exact cleaned_source_sidebar.
Defined.

Lemma filtered_df_raises_iff_witness :
  ∃ e, filtered_df without_marks identity_criteria = Raise e.
Proof.
  apply filtered_df_raises_iff. intros (_ & _ & Hin & _).
  unfold without_marks in Hin. cbn [columns] in Hin.
  rewrite !elem_of_cons, elem_of_nil in Hin.
  repeat (destruct Hin as [Hin|Hin]; [discriminate|]). exact Hin.
Defined.

Lemma filtered_df_idempotent_witness :
  filtered_df only_bob math_in_delhi = Ok only_bob.
Proof.
  apply (filtered_df_idempotent class). vm_compute. reflexivity.
Defined.

Lemma raising_minimum_narrows_witness :
  rows nobody `sublist_of` rows class.
Proof.
  apply (raising_minimum_narrows class identity_criteria nobody_qualifies
           class nobody);
    [reflexivity|reflexivity|reflexivity|
     |vm_compute; reflexivity|vm_compute; reflexivity].
  unfold Qle. cbn. lia.
Defined.

Lemma total_students_bounded_witness : (0 < 1 ≤ length (rows class))%nat.
Proof.
  destruct (total_students_bounded mean64 class math_in_delhi only_bob
              {| avg_marks := Num (mean64 [91]%Q);
                 avg_attendance := Num (mean64 [70]%Q);
                 total_students := 1 |} Excellent)
    as [_ Hbound].
  - vm_compute. reflexivity.
  - vm_compute. reflexivity.
  - exact Hbound.
Defined.

Lemma metrics_without_attendance_witness :
  ∃ m t, key_metrics mean64 without_attendance without_attendance = Ok (Some m, t)
       ∧ avg_attendance m = Num 0.
Proof.
  apply metrics_without_attendance.
  - unfold without_attendance. cbn [columns].
    rewrite !elem_of_cons, elem_of_nil. intros H.
    repeat (destruct H as [H|H]; [discriminate|]). exact H.
  - discriminate.
  - right. left.
  - repeat constructor; intros s; vm_compute; discriminate.
Defined.

Lemma options_by_first_appearance_witness :
  cities (append_row class zed) = cities class
  ∧ courses (append_row class (student "Eve" "Art" "Goa" "Female" 88 91))
    = (courses class ++ [Str "Art"])%list.
Proof.
  destruct (options_by_first_appearance class)
    as [(_ & _ & Hcourses) (_ & _ & Hcities)].
  split.
  - destruct Hcities as [Hnext _]; [do 2 right; left|]. apply Hnext.
  - destruct Hcourses as [Hnext _]; [right; left|]. apply Hnext.
Defined.

Lemma all_cities_keep_everything_witness :
  city_stage every_city_of_class class = Ok class.
Proof. apply all_cities_keep_everything. reflexivity. Defined.

Lemma empty_table_stops_sidebar_witness : default_widgets nobody = ValueError.
Proof.
  apply empty_table_stops_sidebar; [do 4 right; left|reflexivity].
Defined.

Lemma slider_bounds_ordered_witness : (90 <= 95)%Z.
Proof.
  apply (slider_bounds_ordered class). vm_compute. reflexivity.
Defined.



Lemma search_ignores_query_case_witness :
  search_result class "AN" = search_result class "an".
Proof. apply search_ignores_query_case; reflexivity. Defined.

Lemma search_finds_missing_names_witness :
  ∃ V r', search_result cleaned_source "Unknown" = Ok (Some V)
        ∧ rows cleaned_source !! 1%nat = Some r' ∧ r' ∈ rows V.
Proof.
  apply (search_finds_missing_names parse_digits raw_source cleaned_source 1
           (row_of [("Name", NaN); ("Course", Str "Math"); ("Marks", Str "77");
                    ("Attendance", NaN)])).
  - exact cleaned_source_loaded.
  - left.
  - reflexivity.
  - reflexivity.
Defined.

Lemma marks_warning_unreachable_witness :
  has_column class "Marks" = true ∧ top_students class ≠ Ok None.
Proof.
  apply (marks_warning_unreachable class math_in_delhi only_bob).
  vm_compute. reflexivity.
Defined.

Lemma top_students_in_view_witness :
  [anya; bob] `sublist_of` rows class.
Proof.
  apply (top_students_in_view class identity_criteria class
           {| columns := header; rows := [anya; bob] |});
    [reflexivity|reflexivity|reflexivity|
     |vm_compute; reflexivity|vm_compute; reflexivity].
  unfold Qle. cbn. lia.
Defined.
